(** * spnoiser: the screen-element composition model

    A shallow embedding of [spnoiser/ui/core.py], [spnoiser/ui/components.py]
    and the frame function of [spnoiser/app.py].

    Python integers are [Z] ([//] and [%] are [Z.div] and [Z.modulo], both
    floored like Python's); Python strings are [string]; a method that writes
    to the curses window or raises is a computation in the monad [M], which
    produces the trace of what reached the window together with either a
    value or the exception that ended it.  Python floats are not modelled:
    the float operations of the frame function are an interface, [PyFloat],
    and what is proved of the frame function holds for every implementation
    of it. *)

From Stdlib Require Import ZArith List String Ascii Bool Lia QArith.
From Stdlib Require Import DecimalString.
Import ListNotations.

Local Open Scope Z_scope.

(** ** Python string primitives *)

Module PyStr.

(** [len(s)] *)
Definition len (s : string) : Z := Z.of_nat (String.length s).

Fixpoint take (n : nat) (s : string) : string :=
  match n, s with
  | O, _ => EmptyString
  | S _, EmptyString => EmptyString
  | S n', String c s' => String c (take n' s')
  end.

(** [s[:n]]: the first [n] characters, and for a negative [n] all but the
    last [-n]. *)
Definition slice_to (s : string) (n : Z) : string :=
  if 0 <=? n then take (Z.to_nat n) s
  else take (Z.to_nat (len s + n)) s.

Fixpoint repeat (s : string) (n : nat) : string :=
  match n with
  | O => EmptyString
  | S n' => (s ++ repeat s n')%string
  end.

(** [s * n]: empty for [n <= 0]. *)
Definition mul (s : string) (n : Z) : string := repeat s (Z.to_nat n).

(** [str(n)] and [f"{n}"] for an int. *)
Definition of_int (n : Z) : string := NilZero.string_of_int (Z.to_int n).

(** [f"{n:02d}"]: zero-filled to a minimum width of two; a sign already
    takes one of the two columns. *)
Definition fmt_02d (n : Z) : string :=
  let s := of_int n in
  if (String.length s <? 2)%nat then ("0" ++ s)%string else s.

End PyStr.

(** ** Geometry: [Vector2D] and [Rect] *)

Record Vector2D := mkVector2D { vy : Z; vx : Z }.

Record Rect := mkRect { offset : Vector2D; size : Vector2D }.

(** The dataclass defaults: [Rect()] is the empty rectangle at the origin. *)
Definition Rect_default : Rect := mkRect (mkVector2D 0 0) (mkVector2D 0 0).

Definition from_dimensions (y x height width : Z) : Rect :=
  mkRect (mkVector2D y x) (mkVector2D height width).

(** [max_area_of]: the whole window, from what [getmaxyx] answers. *)
Definition max_area_of (maxyx : Z * Z) : Rect :=
  let '(height, width) := maxyx in from_dimensions 0 0 height width.

(** ** Exceptions, the window trace and the monad of drawing methods *)

Inductive exn :=
| RequireError (msg : string)   (* raised by [require] *)
| CursesError                   (* [curses.error] *)
| OverflowError                 (* an int too large for a float; [int] of an infinity *)
| ValueError.                   (* [int] of a nan *)

Inductive result (A : Type) :=
| Ok (a : A)
| Raise (e : exn).
Arguments Ok {A} a.
Arguments Raise {A} e.

(** The classes of screen element. *)
Inductive noising_class := NoisingExpanded | NoisingCompressed.

Inductive class_name :=
| CBorderBox
| CNoising (k : noising_class)
| CRemainingTime
| CExitHint
| CMonitor.

(** What a frame does to the terminal, in order.  [Sub] is a ghost entry: it
    marks the point where [_draw_sub_in] has built a sub-element and is about
    to call its [draw]; nothing is written for it. *)
Inductive event :=
| Addstr (y x : Z) (s : string)         (* [stdscr.addstr(y, x, s)] *)
| Sub (cls : class_name) (area : Rect)
| Erase                                 (* [stdscr.erase()] *)
| Refresh                               (* [stdscr.refresh()] *)
| Beep                                  (* [curses.beep()] *)
| GetMouse                              (* [curses.getmouse()] *)
| PrintRenderingError (e : exn).        (* the [print] of the frame's handler *)

Definition M (A : Type) : Type := (list event * result A)%type.

Definition trace {A} (m : M A) : list event := fst m.
Definition outcome {A} (m : M A) : result A := snd m.

Definition ret {A} (a : A) : M A := ([], Ok a).

Definition bind {A B} (m : M A) (f : A -> M B) : M B :=
  match m with
  | (t, Ok a) => let '(t', r) := f a in (t ++ t', r)
  | (t, Raise e) => (t, Raise e)
  end.

Definition tell (e : event) : M unit := ([e], Ok tt).

Definition lift {A} (r : result A) : M A := ([], r).

Notation "x <- c1 ;; c2" := (bind c1 (fun x => c2))
  (at level 61, c1 at next level, right associativity).
Notation "c1 ;; c2" := (bind c1 (fun _ => c2))
  (at level 61, right associativity).

(** [try: body / except Exception: pass] *)
Definition try_pass (body : M unit) : M unit :=
  match body with
  | (t, Ok _) => (t, Ok tt)
  | (t, Raise _) => (t, Ok tt)
  end.

(** [range(lo, hi)] *)
Definition range (lo hi : Z) : list Z :=
  map (fun i => lo + Z.of_nat i) (seq 0 (Z.to_nat (hi - lo))).

(** [for y in ys: body(y)] *)
Fixpoint for_each {A} (ys : list A) (body : A -> M unit) : M unit :=
  match ys with
  | [] => ret tt
  | y :: ys' => body y ;; for_each ys' body
  end.

(** The entries of a trace that are writes, and those that are delegations. *)
Definition writes (t : list event) : list event :=
  filter (fun e => match e with Addstr _ _ _ => true | _ => false end) t.

Definition subs (t : list event) : list event :=
  filter (fun e => match e with Sub _ _ => true | _ => false end) t.

(** Modelled from the spec: [spnoiser.utils.require] is not among the source
    files.  The spec says that a violated requirement is a failure
    ([BoundsError] for local coordinates, [InvalidArgument] for constructor
    arguments); both come from this one helper, so the model raises one
    exception that carries the message of the call site. *)
Definition require (cond : bool) (msg : string) : M unit :=
  if cond then ret tt else lift (Raise (RequireError msg)).

(** ** [ScreenElement] ([ui/core.py]) *)

(** The interface of the abstract base class: an element knows its area and
    its class, and can be drawn. *)
Class ScreenElement (T : Type) := {
  _area : T -> Rect;
  class_of : T -> class_name;
  draw : T -> M unit
}.

Definition _inner_area (self_area area : Rect) : Rect :=
  mkRect
    (mkVector2D (vy (offset self_area) + vy (offset area))
                (vx (offset self_area) + vx (offset area)))
    (mkVector2D (Z.min (vy (size self_area)) (vy (size area)))
                (Z.min (vx (size self_area)) (vx (size area)))).

(** [_draw_sub_in]: the factory is called on the target area (and may raise),
    then the new element is drawn. *)
Definition _draw_sub_in {T} `{ScreenElement T} (self_area : Rect)
           (sub_elemnt_factory : Rect -> M T)
           (relative_area : option Rect) : M unit :=
  let target_area :=
    match relative_area with
    | None => self_area
    | Some area => _inner_area self_area area
    end in
  sub_elemnt <- sub_elemnt_factory target_area ;;
  tell (Sub (class_of sub_elemnt) (_area sub_elemnt)) ;;
  draw sub_elemnt.

Definition _draw_sub {T} `{ScreenElement T} (self_area : Rect)
           (sub_elemnt_factory : Rect -> M T) : M unit :=
  _draw_sub_in self_area sub_elemnt_factory None.

Definition _abs_coords (area : Rect) (y x : Z) : M Vector2D :=
  let '(mkRect offset size) := area in
  let '(mkVector2D off_y off_x) := offset in
  let '(mkVector2D len_y len_x) := size in
  require ((0 <=? y) && (y <? len_y)) "y is out of bounds" ;;
  require ((0 <=? x) && (x <? len_x)) "x is out of bounds" ;;
  let y_abs := off_y + y in
  let x_abs := off_x + x in
  ret (mkVector2D y_abs x_abs).

(** ** Floats

    The clock of the program is [time.monotonic()], a float, and the frame
    function subtracts, truncates and compares floats.  These operations are
    taken as given.  Subtracting a float from an int converts the int first
    and fails when it is too large; [int(x)] fails on an infinity or a
    nan. *)
Class PyFloat := {
  float : Type;
  float_sub : float -> float -> float;         (* [x - y], two floats *)
  int_sub_float : Z -> float -> result float;  (* [n - x], an int and a float *)
  int_of_float : float -> result Z;            (* [int(x)] *)
  float_ge : float -> float -> bool;           (* [x >= y] *)
  float_0_8 : float;                           (* the literal [0.8] *)
  float_1_0 : float                            (* the literal [1.0] *)
}.

Section Terminal.

(** The terminal backend is not part of the program: whether an [addstr]
    call raises [curses.error] (as it does for a write that ends on the
    window's last cell) is its verdict on the call's arguments. *)
Variable addstr_raises : Z -> Z -> string -> bool.

Definition addstr (y x : Z) (s : string) : M unit :=
  ([Addstr y x s], if addstr_raises y x s then Raise CursesError else Ok tt).

(** [try: body / except curses.error as err: if handler is not None:
    handler(err)]; any other exception passes through. *)
Definition try_curses (body : M unit) (handler : option (exn -> M unit))
  : M unit :=
  match body with
  | (t, Raise CursesError) =>
    match handler with
    | Some h => (t, Ok tt) ;; h CursesError
    | None => (t, Ok tt)
    end
  | r => r
  end.

(** [_draw_str]: the arguments of [addstr] are evaluated left to right, the
    coordinates first (a failed requirement leaves the method), then the
    string cut to the element's width. *)
Definition _draw_str (area : Rect) (y x : Z) (s : string)
           (on_curses_error : option (exn -> M unit)) : M unit :=
  let width := vx (size area) in
  try_curses
    (c <- _abs_coords area y x ;;
     addstr (vy c) (vx c) (PyStr.slice_to s width))
    on_curses_error.

(** ** The concrete elements ([ui/components.py]) *)

(** *** [BorderBox] *)

Record BorderBox := mkBorderBox {
  bb_area : Rect;
  bb_content : Rect -> M unit
}.

Definition BorderBox_init (content : Rect -> M unit) (area : Rect)
  : M BorderBox := ret (mkBorderBox area content).

Definition BorderBox_draw (self : BorderBox) : M unit :=
  let area := bb_area self in
  try_pass
    (let '(mkVector2D height width) := size area in
     let horizon_border :=
       if width >=? 2
       then ("+" ++ PyStr.mul "-" (Z.max 0 (width - 2)) ++ "+")%string
       else "+"%string in
     let vector_border := "|"%string in
     _draw_str area 0 0 horizon_border None ;;
     for_each (range 1 (height - 1))
       (fun y =>
          _draw_str area y 0 vector_border None ;;
          _draw_str area y (width - 1) vector_border None) ;;
     _draw_str area (height - 1) 0 horizon_border None ;;
     let inner_height := height - 2 in
     let inner_width := width - 2 in
     if (inner_height >? 0) && (inner_width >? 0) then
       let content_area :=
         _inner_area area (from_dimensions 1 1 inner_height inner_width) in
       bb_content self content_area
     else ret tt).

#[export] Instance BorderBox_element : ScreenElement BorderBox :=
  {| _area := bb_area; class_of := fun _ => CBorderBox;
     draw := BorderBox_draw |}.

(** *** [Noising] and its two subclasses *)

Record Noising := mkNoising {
  n_class : noising_class;
  n_area : Rect;
  _noise : string
}.

Definition Noising_init (cls : noising_class) (noise : string) (area : Rect)
  : M Noising := ret (mkNoising cls area noise).

Definition _token (self : Noising) : string :=
  match n_class self with
  | NoisingExpanded => ("    " ++ _noise self)%string
  | NoisingCompressed => (_noise self ++ " ")%string
  end.

Definition token_exceeds_width (cls : noising_class) : Z :=
  match cls with
  | NoisingExpanded => 4
  | NoisingCompressed => 1
  end.

Definition Noising_draw (self : Noising) : M unit :=
  let area := n_area self in
  let '(mkVector2D height width) := size area in
  let token := _token self in
  let len_token := PyStr.len token in
  let line :=
    if len_token =? 0 then PyStr.mul " " width
    else
      let ratio := width / len_token in
      let repeats := if width mod len_token =? 0 then ratio else ratio + 1 in
      let line_repeated := PyStr.mul token repeats in
      if width mod len_token =? 0 then line_repeated
      else PyStr.slice_to line_repeated width in
  for_each (range 0 height) (fun y => _draw_str area y 0 line None).

#[export] Instance Noising_element : ScreenElement Noising :=
  {| _area := n_area; class_of := fun e => CNoising (n_class e);
     draw := Noising_draw |}.

(** *** [RemainingTime] *)

Record RemainingTime := mkRemainingTime {
  rt_area : Rect;
  rt_rem_sec : Z
}.

Definition RemainingTime_init (remaining_seconds : Z) (area : Rect)
  : M RemainingTime :=
  require (remaining_seconds >? 0)
          "Remaining seconds must be greater than zero" ;;
  ret (mkRemainingTime area remaining_seconds).

Definition SECONDS_DAY : Z := 86400.
Definition SECONDS_HOUR : Z := 3600.
Definition SECONDS_MINUTE : Z := 60.

Definition format_time (seconds : Z) : string :=
  if seconds >? SECONDS_DAY then
    let days := seconds / SECONDS_DAY in
    let rest := seconds mod SECONDS_DAY in
    let hh := rest / SECONDS_HOUR in
    let mm := (rest mod SECONDS_HOUR) / SECONDS_MINUTE in
    (PyStr.of_int days ++ " days and " ++ PyStr.fmt_02d hh ++ ":"
       ++ PyStr.fmt_02d mm)%string
  else if seconds >? 60 then
    let hh := seconds / SECONDS_HOUR in
    let mm := (seconds mod SECONDS_HOUR) / SECONDS_MINUTE in
    (PyStr.fmt_02d hh ++ ":" ++ PyStr.fmt_02d mm)%string
  else
    (PyStr.of_int seconds ++ "s")%string.

Definition format_remaining_time (self : RemainingTime) : string :=
  format_time (rt_rem_sec self).

Definition RemainingTime_draw (self : RemainingTime) : M unit :=
  let rem_text :=
    ("Noising time remaining: " ++ format_remaining_time self)%string in
  let height := vy (size (rt_area self)) in
  _draw_str (rt_area self) (height - 2) 0 rem_text None.

#[export] Instance RemainingTime_element : ScreenElement RemainingTime :=
  {| _area := rt_area; class_of := fun _ => CRemainingTime;
     draw := RemainingTime_draw |}.

(** *** [ExitHint] *)

Record ExitHint := mkExitHint { eh_area : Rect }.

Definition ExitHint_init (area : Rect) : M ExitHint := ret (mkExitHint area).

Definition ExitHint_draw (self : ExitHint) : M unit :=
  let height := vy (size (eh_area self)) in
  _draw_str (eh_area self) (height - 1) 0 "Press ESC to stop" None.

#[export] Instance ExitHint_element : ScreenElement ExitHint :=
  {| _area := eh_area; class_of := fun _ => CExitHint;
     draw := ExitHint_draw |}.

(** *** [Monitor], the composition root *)

Record Monitor := mkMonitor {
  m_area : Rect;
  m_noise : string;
  m_rem_sec : option Z
}.

Definition Monitor_init (noise_text : string) (remaining_seconds : option Z)
           (area : Rect) : M Monitor :=
  ret (mkMonitor area noise_text remaining_seconds).

(** [Monitor.draw] is three [if] statements in a row; each is a definition
    here, named after the comment that heads it in the source. *)

(** [if height >= 3:] the main content. *)
Definition Monitor_main_content (self : Monitor) : M unit :=
  let area := m_area self in
  let '(mkVector2D height width) := size area in
  if height >=? 3 then
    let noise := m_noise self in
    let draw_border := height >=? 5 in
    let width_threshold :=
      PyStr.len noise
      + token_exceeds_width NoisingExpanded
      + (if draw_border then 2 else 0) in
    let noising :=
      if width >=? width_threshold
      then NoisingExpanded else NoisingCompressed in
    let noising_area :=
      mkRect (mkVector2D 0 0) (mkVector2D (height - 2) width) in
    if draw_border then
      _draw_sub_in area
        (BorderBox_init
           (fun area' =>
              _draw_sub_in area (Noising_init noising noise) (Some area')))
        (Some noising_area)
    else
      _draw_sub_in area (Noising_init noising noise) (Some noising_area)
  else ret tt.

(** [if height >= 2:] the remaining time. *)
Definition Monitor_remaining_time (self : Monitor) : M unit :=
  let area := m_area self in
  let '(mkVector2D height width) := size area in
  if height >=? 2 then
    match m_rem_sec self with
    | Some rem_sec => _draw_sub area (RemainingTime_init rem_sec)
    | None => ret tt
    end
  else ret tt.

(** [if height >= 1:] the last line, the exit hint. *)
Definition Monitor_exit_hint (self : Monitor) : M unit :=
  let area := m_area self in
  let '(mkVector2D height width) := size area in
  if height >=? 1 then _draw_sub area ExitHint_init else ret tt.

Definition Monitor_draw (self : Monitor) : M unit :=
  Monitor_main_content self ;;
  Monitor_remaining_time self ;;
  Monitor_exit_hint self.

#[export] Instance Monitor_element : ScreenElement Monitor :=
  {| _area := m_area; class_of := fun _ => CMonitor;
     draw := Monitor_draw |}.

(** The closed set of element classes, as one type. *)
Inductive element :=
| ElBorderBox (e : BorderBox)
| ElNoising (e : Noising)
| ElRemainingTime (e : RemainingTime)
| ElExitHint (e : ExitHint)
| ElMonitor (e : Monitor).

#[export] Instance element_element : ScreenElement element :=
  {| _area := fun e =>
       match e with
       | ElBorderBox e => _area e
       | ElNoising e => _area e
       | ElRemainingTime e => _area e
       | ElExitHint e => _area e
       | ElMonitor e => _area e
       end;
     class_of := fun e =>
       match e with
       | ElBorderBox e => class_of e
       | ElNoising e => class_of e
       | ElRemainingTime e => class_of e
       | ElExitHint e => class_of e
       | ElMonitor e => class_of e
       end;
     draw := fun e =>
       match e with
       | ElBorderBox e => draw e
       | ElNoising e => draw e
       | ElRemainingTime e => draw e
       | ElExitHint e => draw e
       | ElMonitor e => draw e
       end |}.

(** ** The frame function ([app.py]) *)

(** The window's [getch], [erase] and [refresh], and [curses.beep] and
    [curses.getmouse] inside their [try], are taken to return: of the
    backend only the cell write can fail. *)

Context {F : PyFloat}.

Record App := mkApp {
  _noise_text : string;
  _max_time : Z;
  _start_time : float;
  _beep_enabled : bool;
  _last_beep : float
}.

(** What the outside world answers during one call of [_frame]. *)
Record tick := mkTick {
  getch : Z;                   (* [stdscr.getch()], [-1] when there is no input *)
  getmaxyx : Z * Z;            (* [stdscr.getmaxyx()] *)
  monotonic_remaining : float; (* the clock read by [remaining_seconds] *)
  monotonic_beep : float       (* the clock read before the beep *)
}.

(** [getattr(curses, "KEY_MOUSE", -1)] *)
Variable KEY_MOUSE : Z.

Definition FRAME_INTERVAL : float := float_0_8.
Definition BEEP_INTERVAL : float := float_1_0.

(** [max(0, int(self._max_time - (time.monotonic() - self._start_time)))],
    with [now] the reading of the clock; a failure of the float arithmetic
    leaves the method. *)
Definition remaining_seconds (self : App) (now : float) : result (option Z) :=
  if _max_time self =? 0 then Ok None
  else
    match int_sub_float (_max_time self) (float_sub now (_start_time self)) with
    | Raise e => Raise e
    | Ok difference =>
      match int_of_float difference with
      | Raise e => Raise e
      | Ok whole => Ok (Some (Z.max 0 whole))
      end
    end.

(** [try: body / except Exception as err: print(...)] *)
Definition try_print (body : M unit) : M unit :=
  match body with
  | (t, Raise e) => (t ++ [PrintRenderingError e], Ok tt)
  | r => r
  end.

(** [_frame] returns whether the loop goes on; the model also returns the
    object, whose [_last_beep] the method may have updated. *)
Definition _frame (self : App) (tk : tick) : M (bool * App) :=
  let ch := getch tk in
  let after_input : M (bool * App) :=
    remaining_seconds <- lift (remaining_seconds self (monotonic_remaining tk)) ;;
    if match remaining_seconds with
       | Some r => r <=? 0
       | None => false
       end
    then ret (false, self)
    else
      tell Erase ;;
      try_print
        (monitor <- Monitor_init (_noise_text self) remaining_seconds
                      (max_area_of (getmaxyx tk)) ;;
         draw monitor) ;;
      tell Refresh ;;
      if _beep_enabled self then
        let now := monotonic_beep tk in
        if float_ge (float_sub now (_last_beep self)) BEEP_INTERVAL then
          try_pass (tell Beep) ;;
          ret (true,
               mkApp (_noise_text self) (_max_time self) (_start_time self)
                     (_beep_enabled self) now)
        else ret (true, self)
      else ret (true, self) in
  if negb (ch =? -1) then
    if ch =? 27 then
      (* ESC key pressed *)
      ret (false, self)
    else if ch =? KEY_MOUSE then
      (* consume mouse events so terminal does not scroll (wheel) *)
      try_pass (tell GetMouse) ;;
      ret (true, self)
    else after_input
  else after_input.

End Terminal.

(** * Reference definitions

    What the properties below compare the program with. *)

(** The line a filler draws when its token is not empty. *)
Definition repeated_line (token : string) (width : Z) : string :=
  let ratio := width / PyStr.len token in
  let repeats := if width mod PyStr.len token =? 0 then ratio else ratio + 1 in
  let line_repeated := PyStr.mul token repeats in
  if width mod PyStr.len token =? 0 then line_repeated
  else PyStr.slice_to line_repeated width.

(** A field of exactly two decimal digits, for [0 <= n < 100]. *)
Definition two_digits (n : Z) : string :=
  String (ascii_of_nat (48 + Z.to_nat (n / 10)))
    (String (ascii_of_nat (48 + Z.to_nat (n mod 10))) EmptyString).

(** The filler the layout rule asks for: expanded when the width reaches the
    noise length plus the expanded overhead of 4, plus 2 under a border. *)
Definition chosen_filler (height width : Z) (noise : string) : noising_class :=
  if width >=? PyStr.len noise + 4 + (if height >=? 5 then 2 else 0)
  then NoisingExpanded else NoisingCompressed.

(** An area without rows or without columns. *)
Definition no_room (area : Rect) : Prop :=
  vy (size area) <= 0 \/ vx (size area) <= 0.

(** A backend on which no write fails. *)
Definition never_raises : Z -> Z -> string -> bool := fun _ _ _ => false.

(** A backend on which every write fails. *)
Definition always_raises : Z -> Z -> string -> bool := fun _ _ _ => true.

(** A write that stays on the cells of an area: it starts on one of its rows
    and its text ends no later than its last column. *)
Definition write_inside (area : Rect) (e : event) : Prop :=
  match e with
  | Addstr y x s =>
    vy (offset area) <= y < vy (offset area) + vy (size area)
    /\ vx (offset area) <= x
    /\ x + PyStr.len s <= vx (offset area) + vx (size area)
  | _ => True
  end.

(** The rows a filler of class [cls] writes over an area: its line at the
    first column of every row. *)
Definition filler_rows (cls : noising_class) (noise : string) (a : Rect)
  : list event :=
  map (fun y =>
         Addstr (vy (offset a) + y) (vx (offset a))
                (repeated_line (_token (mkNoising cls a noise)) (vx (size a))))
      (range 0 (vy (size a))).

(** One area within another. *)
Definition within (a b : Rect) : Prop :=
  vy (offset b) <= vy (offset a)
  /\ vy (offset a) + vy (size a) <= vy (offset b) + vy (size b)
  /\ vx (offset b) <= vx (offset a)
  /\ vx (offset a) + vx (size a) <= vx (offset b) + vx (size b).

(** The ways through a frame.  A key other than ESC that is the mouse key
    is consumed; the time is up when remaining seconds are present and not
    positive, a test that fails when the clock arithmetic does; the cue is
    due when the fallback is on and the clock has gone on by the interval
    since the last one. *)
Definition consumes_mouse (KEY_MOUSE ch : Z) : bool :=
  negb (ch =? -1) && negb (ch =? 27) && (ch =? KEY_MOUSE).

Definition expired {F : PyFloat} (self : App) (tk : tick) : result bool :=
  match remaining_seconds self (monotonic_remaining tk) with
  | Ok (Some r) => Ok (r <=? 0)
  | Ok None => Ok false
  | Raise e => Raise e
  end.

Definition cue_due {F : PyFloat} (self : App) (tk : tick) : bool :=
  _beep_enabled self
  && float_ge (float_sub (monotonic_beep tk) (_last_beep self)) BEEP_INTERVAL.

(** The object after a cue at clock reading [now]. *)
Definition with_last_beep {F : PyFloat} (self : App) (now : float) : App :=
  mkApp (_noise_text self) (_max_time self) (_start_time self)
        (_beep_enabled self) now.

(** The [Monitor] a frame builds: over the whole window, with the
    remaining seconds that were computed. *)
Definition frame_monitor {F : PyFloat} (self : App) (tk : tick) : Monitor :=
  mkMonitor (max_area_of (getmaxyx tk)) (_noise_text self)
            (match remaining_seconds self (monotonic_remaining tk) with
             | Ok remaining => remaining
             | Raise _ => None
             end).

(** An implementation of the float interface to run the frame function on:
    exact rationals, which never overflow.  [int_of] truncates towards
    zero. *)
Definition int_of (x : Q) : Z := Z.quot (Qnum x) (Zpos (Qden x)).

Definition exact_clock : PyFloat :=
  {| float := Q;
     float_sub := Qminus;
     int_sub_float := fun n x => Ok (inject_Z n - x)%Q;
     int_of_float := fun x => Ok (int_of x);
     float_ge := fun x y => Qle_bool y x;
     float_0_8 := 8 # 10;
     float_1_0 := 1%Q |}.

(** What may be logged while a [Monitor] is rendered inside a frame. *)
Definition rendering_entry (e : event) : Prop :=
  match e with
  | Addstr _ _ _ | Sub _ _ | PrintRenderingError _ => True
  | _ => False
  end.

(** A method that returned, or left on a failed requirement. *)
Definition ok_or_required (r : result unit) : Prop :=
  r = Ok tt \/ exists msg, r = Raise (RequireError msg).

(** The frame of a box: the top line, the two sides of every row between,
    the bottom line. *)
Definition horizon_border (width : Z) : string :=
  if width >=? 2
  then ("+" ++ PyStr.mul "-" (width - 2) ++ "+")%string
  else "+"%string.

Definition border_frame (area : Rect) : list event :=
  let oy := vy (offset area) in
  let ox := vx (offset area) in
  let h := vy (size area) in
  let w := vx (size area) in
  [Addstr oy ox (horizon_border w)]
    ++ flat_map (fun y => [Addstr (oy + y) ox "|";
                           Addstr (oy + y) (ox + (w - 1)) "|"])
                (range 1 (h - 1))
    ++ [Addstr (oy + (h - 1)) ox (horizon_border w)].

(** * Properties *)

(** ** Strings *)

Lemma length_append (s t : string) :
  String.length (s ++ t) = (String.length s + String.length t)%nat.
Proof.
  induction s as [|c s IH]; simpl; [reflexivity | now rewrite IH].
Qed.

Lemma length_repeat (s : string) (n : nat) :
  String.length (PyStr.repeat s n) = (n * String.length s)%nat.
Proof.
  induction n as [|n IH]; simpl; [reflexivity|].
  now rewrite length_append, IH.
Qed.

Lemma length_take (n : nat) (s : string) :
  String.length (PyStr.take n s) = Nat.min n (String.length s).
Proof.
  revert s; induction n as [|n IH]; intros [|c s]; simpl; auto.
Qed.

Lemma take_all (n : nat) (s : string) :
  (String.length s <= n)%nat -> PyStr.take n s = s.
Proof.
  revert s; induction n as [|n IH]; intros [|c s]; simpl; intros Hl;
    try reflexivity; try lia.
  f_equal. apply IH. lia.
Qed.

Lemma len_nonneg (s : string) : 0 <= PyStr.len s.
Proof. unfold PyStr.len. lia. Qed.

Lemma len_append (s t : string) :
  PyStr.len (s ++ t) = PyStr.len s + PyStr.len t.
Proof. unfold PyStr.len. rewrite length_append. lia. Qed.

Lemma len_mul (s : string) (n : Z) :
  0 <= n -> PyStr.len (PyStr.mul s n) = n * PyStr.len s.
Proof.
  intros Hn. unfold PyStr.len, PyStr.mul. rewrite length_repeat. lia.
Qed.

Lemma slice_to_all (s : string) (n : Z) :
  PyStr.len s <= n -> PyStr.slice_to s n = s.
Proof.
  intros Hn. pose proof (len_nonneg s) as H0. unfold PyStr.slice_to.
  destruct (Z.leb_spec 0 n); [|lia].
  apply take_all. unfold PyStr.len in Hn. lia.
Qed.

Lemma len_slice_to (s : string) (n : Z) :
  0 <= n <= PyStr.len s -> PyStr.len (PyStr.slice_to s n) = n.
Proof.
  intros [H0 Hn]. unfold PyStr.slice_to.
  destruct (Z.leb_spec 0 n); [|lia].
  unfold PyStr.len in *. rewrite length_take. lia.
Qed.

(** ** The monad *)

Lemma bind_Ok {A B} (m : M A) (f : A -> M B) (t : list event) (a : A) :
  m = (t, Ok a) -> bind m f = (t ++ trace (f a), outcome (f a)).
Proof. intros ->. unfold bind, trace, outcome. now destruct (f a). Qed.

Lemma bind_Raise {A B} (m : M A) (f : A -> M B) (t : list event) (e : exn) :
  m = (t, Raise e) -> bind m f = (t, Raise e).
Proof. now intros ->. Qed.

Lemma in_range (lo hi y : Z) : In y (range lo hi) <-> lo <= y < hi.
Proof.
  unfold range. rewrite in_map_iff. split.
  - intros (i & <- & Hi). apply in_seq in Hi. lia.
  - intros Hy. exists (Z.to_nat (y - lo)). split; [lia|].
    apply in_seq. lia.
Qed.

Lemma for_each_Ok {A} (ys : list A) (body : A -> M unit)
      (f : A -> list event) :
  (forall y, In y ys -> body y = (f y, Ok tt)) ->
  for_each ys body = (flat_map f ys, Ok tt).
Proof.
  induction ys as [|y ys IH]; intros Hb; [reflexivity|].
  simpl. rewrite (bind_Ok _ _ (f y) tt) by (apply Hb; now left).
  rewrite IH by (intros; apply Hb; now right). reflexivity.
Qed.

Lemma flat_map_singleton {A B} (g : A -> B) (l : list A) :
  flat_map (fun a => [g a]) l = map g l.
Proof. induction l as [|a l IH]; simpl; [reflexivity | now rewrite IH]. Qed.

(** ** Local coordinates *)

Lemma abs_coords_in (area : Rect) (y x : Z) :
  0 <= y < vy (size area) -> 0 <= x < vx (size area) ->
  _abs_coords area y x
  = ([], Ok (mkVector2D (vy (offset area) + y) (vx (offset area) + x))).
Proof.
  destruct area as [[oy ox] [h w]]; simpl. intros Hy Hx.
  replace ((0 <=? y) && (y <? h)) with true by lia.
  replace ((0 <=? x) && (x <? w)) with true by lia.
  reflexivity.
Qed.

Lemma abs_coords_out (area : Rect) (y x : Z) :
  ~ (0 <= y < vy (size area) /\ 0 <= x < vx (size area)) ->
  exists msg, _abs_coords area y x = ([], Raise (RequireError msg)).
Proof.
  destruct area as [[oy ox] [h w]]; simpl. intros Hout.
  destruct ((0 <=? y) && (y <? h)) eqn:Ey.
  - destruct ((0 <=? x) && (x <? w)) eqn:Ex; [lia|].
    now exists "x is out of bounds"%string.
  - now exists "y is out of bounds"%string.
Qed.

Section DrawStr.

Variable ar : Z -> Z -> string -> bool.

(** An in-bounds [_draw_str] issues one [addstr], at offset + local, of the
    string cut to the element's width; a [curses.error] is swallowed. *)
Lemma draw_str_in (area : Rect) (y x : Z) (s : string) :
  0 <= y < vy (size area) -> 0 <= x < vx (size area) ->
  _draw_str ar area y x s None
  = ([Addstr (vy (offset area) + y) (vx (offset area) + x)
             (PyStr.slice_to s (vx (size area)))], Ok tt).
Proof.
  intros Hy Hx. unfold _draw_str.
  rewrite (bind_Ok _ _ _ _ (abs_coords_in area y x Hy Hx)).
  unfold addstr, trace, outcome, try_curses; simpl.
  now destruct (ar _ _ _).
Qed.

(** An out-of-bounds [_draw_str] writes nothing and raises. *)
Lemma draw_str_out (area : Rect) (y x : Z) (s : string) h :
  ~ (0 <= y < vy (size area) /\ 0 <= x < vx (size area)) ->
  exists msg, _draw_str ar area y x s h = ([], Raise (RequireError msg)).
Proof.
  intros Hout. destruct (abs_coords_out area y x Hout) as (msg & E).
  exists msg. unfold _draw_str. now rewrite (bind_Raise _ _ _ _ E).
Qed.

End DrawStr.

(** ** The fillers *)

Lemma token_len (cls : noising_class) (area : Rect) (noise : string) :
  PyStr.len (_token (mkNoising cls area noise))
  = PyStr.len noise + token_exceeds_width cls.
Proof.
  destruct cls; unfold _token; cbn [n_class _noise token_exceeds_width];
    rewrite len_append; unfold PyStr.len; simpl String.length; lia.
Qed.

Lemma token_len_pos (self : Noising) : 1 <= PyStr.len (_token self).
Proof.
  destruct self as [cls area noise]. rewrite token_len.
  pose proof (len_nonneg noise). destruct cls; simpl; lia.
Qed.

Lemma repeats_cover (L w : Z) :
  1 <= L -> 0 <= w ->
  let r := if w mod L =? 0 then w / L else w / L + 1 in
  0 <= r /\ w <= r * L /\ (w mod L = 0 -> w = r * L).
Proof.
  intros HL Hw r. subst r.
  pose proof (Z.div_mod w L ltac:(lia)) as Hdm.
  pose proof (Z.mod_pos_bound w L ltac:(lia)) as Hm.
  pose proof (Z.div_pos w L Hw ltac:(lia)) as Hd.
  destruct (Z.eqb_spec (w mod L) 0) as [E|E]; repeat split; try nia.
Qed.

Lemma repeated_line_spec (token : string) (w : Z) :
  1 <= PyStr.len token -> 0 <= w ->
  let L := PyStr.len token in
  let r := if w mod L =? 0 then w / L else w / L + 1 in
  repeated_line token w = PyStr.slice_to (PyStr.mul token r) w
  /\ PyStr.len (repeated_line token w) = w.
Proof.
  intros HL Hw L r.
  destruct (repeats_cover L w HL Hw) as (Hr & Hcov & Hex). fold r in Hr, Hcov, Hex.
  assert (Hlen : PyStr.len (PyStr.mul token r) = r * L) by now apply len_mul.
  assert (E : repeated_line token w = PyStr.slice_to (PyStr.mul token r) w).
  { unfold repeated_line. fold L. fold r.
    destruct (Z.eqb_spec (w mod L) 0) as [E0|E0]; [|reflexivity].
    symmetry. apply slice_to_all. specialize (Hex E0). lia. }
  split; [exact E|]. rewrite E. apply len_slice_to. lia.
Qed.

Section Fillers.

Variable ar : Z -> Z -> string -> bool.

(** [Noising.draw] never takes the empty-token branch. *)
Lemma Noising_draw_repeated (self : Noising) :
  Noising_draw ar self
  = for_each (range 0 (vy (size (n_area self))))
      (fun y =>
         _draw_str ar (n_area self) y 0
           (repeated_line (_token self) (vx (size (n_area self)))) None).
Proof.
  unfold Noising_draw, repeated_line.
  destruct (size (n_area self)) as [height width]; simpl.
  pose proof (token_len_pos self) as Hpos.
  destruct (Z.eqb_spec (PyStr.len (_token self)) 0); [lia|reflexivity].
Qed.

(** On an area at least one column wide every row is written, with the
    same line, and the method returns normally. *)
Lemma Noising_draw_rows (self : Noising) :
  1 <= vx (size (n_area self)) ->
  Noising_draw ar self
  = (map (fun y =>
            Addstr (vy (offset (n_area self)) + y) (vx (offset (n_area self)))
                   (repeated_line (_token self) (vx (size (n_area self)))))
         (range 0 (vy (size (n_area self)))),
     Ok tt).
Proof.
  intros Hw. rewrite Noising_draw_repeated.
  rewrite <- flat_map_singleton. apply for_each_Ok.
  intros y Hy. apply in_range in Hy.
  rewrite draw_str_in by lia.
  rewrite Z.add_0_r, slice_to_all; [reflexivity|].
  destruct (repeated_line_spec (_token self) (vx (size (n_area self))))
    as [_ Hl]; [apply token_len_pos | lia | lia].
Qed.

(** C1. For every noise string and every width [w >= 1], the draw of
    either filler builds the line [(token * r)[:w]], where the token is
    four spaces and the noise (expanded) or the noise and one space
    (compressed) and [r] is [w / len] when the token length divides [w]
    and [w / len + 1] otherwise; in the even case the repeated string is
    the line as it is.  The line is [w] characters long, and the draw
    writes it at the first column of every row [0 <= y < height] of the
    filler's area, and nothing else. *)
Theorem C1_filler_line_fills_every_row
        (cls : noising_class) (noise : string) (area : Rect) :
  let self := mkNoising cls area noise in
  let h := vy (size area) in
  let w := vx (size area) in
  let token := match cls with
               | NoisingExpanded => ("    " ++ noise)%string
               | NoisingCompressed => (noise ++ " ")%string
               end in
  let tokenLen := PyStr.len token in
  let r := if w mod tokenLen =? 0 then w / tokenLen else w / tokenLen + 1 in
  let line := PyStr.slice_to (PyStr.mul token r) w in
  1 <= w ->
  _token self = token
  /\ (w mod tokenLen = 0 -> line = PyStr.mul token r)
  /\ PyStr.len line = w
  /\ Noising_draw ar self
     = (map (fun y => Addstr (vy (offset area) + y) (vx (offset area)) line)
            (range 0 h), Ok tt)
  /\ (forall y, 0 <= y < h ->
      In (Addstr (vy (offset area) + y) (vx (offset area)) line)
         (trace (Noising_draw ar self))).
Proof.
  intros self h w token tokenLen r line Hw.
  assert (Htok : _token self = token) by (now destruct cls).
  pose proof (token_len_pos self) as Hpos. rewrite Htok in Hpos.
  destruct (repeated_line_spec token w Hpos ltac:(lia)) as [Hline Hlen].
  fold tokenLen in Hline. fold r in Hline. fold line in Hline.
  rewrite Hline in Hlen.
  assert (Hdraw : Noising_draw ar self
                  = (map (fun y => Addstr (vy (offset area) + y)
                                          (vx (offset area)) line)
                         (range 0 h), Ok tt)).
  { rewrite (Noising_draw_rows self Hw). rewrite Htok. simpl.
    fold w. now rewrite Hline. }
  split; [exact Htok|]. split.
  { intros Hdiv. unfold line. apply slice_to_all.
    destruct (repeats_cover tokenLen w Hpos ltac:(lia)) as (Hr & _ & Hex).
    fold r in Hr, Hex. rewrite len_mul by exact Hr.
    fold tokenLen. specialize (Hex Hdiv). lia. }
  split; [exact Hlen|]. split; [exact Hdraw|].
  intros y Hy. rewrite Hdraw. unfold trace; simpl.
  apply in_map_iff. exists y. split; [reflexivity|]. now apply in_range.
Qed.

(** C10. For every noise string, the empty one included, the expanded
    token is [len(noise) + 4] characters long and the compressed token
    [len(noise) + 1], so the test [len_token == 0] of [Noising.draw] is
    false for both classes and the draw is the one of the repeating
    branch: the fill-with-spaces branch is never taken. *)
Theorem C10_token_never_empty (noise : string) (area : Rect) :
  PyStr.len (_token (mkNoising NoisingExpanded area noise))
  = PyStr.len noise + 4
  /\ PyStr.len (_token (mkNoising NoisingCompressed area noise))
     = PyStr.len noise + 1
  /\ forall cls,
      let self := mkNoising cls area noise in
      (PyStr.len (_token self) =? 0) = false
      /\ Noising_draw ar self
         = for_each (range 0 (vy (size area)))
             (fun y =>
                _draw_str ar area y 0
                  (repeated_line (_token self) (vx (size area))) None).
Proof.
  split; [apply token_len|]. split; [apply token_len|].
  intros cls self. split.
  - pose proof (token_len_pos self). lia.
  - apply (Noising_draw_repeated self).
Qed.

End Fillers.

(** ** [RemainingTime] *)

Lemma fmt_02d_two_digits (n : Z) :
  0 <= n < 100 -> PyStr.fmt_02d n = two_digits n.
Proof.
  intros Hn.
  assert (Hall : forallb (fun k => String.eqb (PyStr.fmt_02d k) (two_digits k))
                         (range 0 100) = true) by (vm_compute; reflexivity).
  rewrite forallb_forall in Hall.
  apply String.eqb_eq, Hall, in_range. exact Hn.
Qed.

Lemma two_digits_length (n : Z) : String.length (two_digits n) = 2%nat.
Proof. reflexivity. Qed.

(** C6, as the code has it.  For every strictly positive [s]: above 86400
    the text is the day count, [" days and "] and the hours and minutes of
    [s mod 86400]; from 61 to 86400 it is hours ([s / 3600], up to 24, no day
    rollover) and minutes; up to 60 it is the seconds and ["s"].  Hours and
    minutes are always two digits.  So 45 gives ["45s"], 90000 gives
    ["1 days and 01:00"], and 90 (one minute and a half) gives ["00:01"]. *)
Theorem C6_format_time_tiers (s : Z) :
  0 < s ->
  (86400 < s ->
   format_time s
   = (PyStr.of_int (s / 86400) ++ " days and "
        ++ two_digits ((s mod 86400) / 3600) ++ ":"
        ++ two_digits (((s mod 86400) mod 3600) / 60))%string)
  /\ (60 < s <= 86400 ->
      format_time s
      = (two_digits (s / 3600) ++ ":" ++ two_digits ((s mod 3600) / 60))%string)
  /\ (s <= 60 -> format_time s = (PyStr.of_int s ++ "s")%string)
  /\ format_time 45 = "45s"%string
  /\ format_time 90 = "00:01"%string
  /\ format_time 90000 = "1 days and 01:00"%string.
Proof.
  intros Hs. unfold format_time, SECONDS_DAY, SECONDS_HOUR, SECONDS_MINUTE.
  repeat split; try reflexivity.
  - intros Hd. destruct (Z.gtb_spec s 86400); [|lia].
    pose proof (Z.mod_pos_bound s 86400 ltac:(lia)) as Hr.
    pose proof (Z.mod_pos_bound (s mod 86400) 3600 ltac:(lia)) as Hm.
    rewrite !fmt_02d_two_digits; [reflexivity| |].
    + split; [apply Z.div_pos; lia|].
      apply Z.div_lt_upper_bound; lia.
    + split; [apply Z.div_pos; lia|].
      apply Z.div_lt_upper_bound; lia.
  - intros Hd. destruct (Z.gtb_spec s 86400); [lia|].
    destruct (Z.gtb_spec s 60); [|lia].
    pose proof (Z.mod_pos_bound s 3600 ltac:(lia)) as Hm.
    rewrite !fmt_02d_two_digits; [reflexivity| |].
    + split; [apply Z.div_pos; lia|].
      apply Z.div_lt_upper_bound; lia.
    + split; [apply Z.div_pos; lia|].
      apply Z.div_lt_upper_bound; lia.
  - intros Hd. destruct (Z.gtb_spec s 86400); [lia|].
    destruct (Z.gtb_spec s 60); [lia|]. reflexivity.
Qed.

(** C7. Building a [RemainingTime] fails, with the error of [require], if
    and only if the remaining seconds are zero or negative; for every
    strictly positive value it succeeds and the element holds that value. *)
Theorem C7_remaining_time_requires_positive (area : Rect) (s : Z) :
  ((exists msg, RemainingTime_init s area = ([], Raise (RequireError msg)))
   <-> s <= 0)
  /\ (RemainingTime_init s area = ([], Ok (mkRemainingTime area s))
      <-> 0 < s).
Proof.
  unfold RemainingTime_init, require.
  destruct (Z.gtb_spec s 0) as [Hpos|Hneg]; simpl; split; split;
    try lia; try discriminate; try reflexivity.
  - intros (msg & E). discriminate E.
  - intros _. eexists. reflexivity.
Qed.

(** ** [ScreenElement] *)

(** C3, at a failing input.  In an element five columns wide, drawing
    ["abcdef"] at local column 3 leaves room for two characters; the code
    cuts the text to the element's width, not to that room, and writes five
    characters from column 3, three of them beyond the element. *)
Theorem C3_draw_str_cuts_to_width_only (ar : Z -> Z -> string -> bool) :
  let area := from_dimensions 0 0 1 5 in
  _draw_str ar area 0 3 "abcdef" None = ([Addstr 0 3 "abcde"], Ok tt)
  /\ vx (size area) - 3 < PyStr.len "abcde".
Proof.
  split; [|reflexivity].
  unfold _draw_str, try_curses, addstr; simpl.
  now destruct (ar _ _ _).
Qed.

(** C4. For every parent area, every relative [Rect] and every factory,
    [_draw_sub_in] calls the factory on the rectangle whose offset is the
    sum of the two offsets and whose size is the componentwise minimum of
    the two sizes, and draws what it built; neither the offset nor the size
    is checked against anything, so this holds for all inputs.  The
    factories that cannot fail build their element over exactly that
    rectangle. *)
Theorem C4_draw_sub_in_clamps_size_only
        (ar : Z -> Z -> string -> bool) (self_area rel : Rect) :
  let child :=
    mkRect (mkVector2D (vy (offset self_area) + vy (offset rel))
                       (vx (offset self_area) + vx (offset rel)))
           (mkVector2D (Z.min (vy (size self_area)) (vy (size rel)))
                       (Z.min (vx (size self_area)) (vx (size rel)))) in
  _inner_area self_area rel = child
  /\ (forall T (E : ScreenElement T) (factory : Rect -> M T),
      @_draw_sub_in T E self_area factory (Some rel)
      = (sub <- factory child ;;
         tell (Sub (class_of sub) (_area sub)) ;;
         draw sub))
  /\ hd_error (trace (@_draw_sub_in _ (ExitHint_element ar) self_area
                        ExitHint_init (Some rel)))
     = Some (Sub CExitHint child)
  /\ (forall cls noise,
      hd_error (trace (@_draw_sub_in _ (Noising_element ar) self_area
                         (Noising_init cls noise) (Some rel)))
      = Some (Sub (CNoising cls) child))
  /\ (forall content,
      hd_error (trace (@_draw_sub_in _ (BorderBox_element ar) self_area
                         (BorderBox_init content) (Some rel)))
      = Some (Sub CBorderBox child)).
Proof.
  intros child. split; [reflexivity|]. split; [reflexivity|].
  assert (Hhd : forall T (E : ScreenElement T) (el : T),
             hd_error (trace (@_draw_sub_in T E self_area
                                (fun a => ret el) (Some rel)))
             = Some (Sub (class_of el) (_area el))).
  { intros T E el. unfold _draw_sub_in, ret, tell, bind, trace; simpl.
    now destruct (draw el). }
  split; [|split].
  - apply (Hhd _ (ExitHint_element ar) (mkExitHint child)).
  - intros cls noise.
    apply (Hhd _ (Noising_element ar) (mkNoising cls child noise)).
  - intros content.
    apply (Hhd _ (BorderBox_element ar) (mkBorderBox child content)).
Qed.

(** ** The frame function *)

Section FrameEsc.

Context {F : PyFloat}.

(** C9. Whatever the state of the loop (start time, maximum duration, time
    left) and whatever else the tick would have answered, when the input
    polled at the top of the frame is ESC (27) the frame returns [False],
    leaves the object as it was and touches the terminal not at all. *)
Theorem C9_esc_stops_without_drawing
        (ar : Z -> Z -> string -> bool) (KEY_MOUSE : Z)
        (self : App) (tk : tick) :
  getch tk = 27 ->
  _frame ar KEY_MOUSE self tk = ([], Ok (false, self)).
Proof.
  intros Hch. unfold _frame. rewrite Hch. reflexivity.
Qed.

End FrameEsc.

(** ** Traces of composed computations *)

Lemma trace_bind_prefix {A B} (m : M A) (f : A -> M B) :
  exists t', trace (bind m f) = trace m ++ t'.
Proof.
  destruct m as [t [a|e]]; unfold bind, trace; simpl.
  - destruct (f a) as [t' r]. now exists t'.
  - exists []. now rewrite app_nil_r.
Qed.

Lemma in_trace_bind {A B} (m : M A) (f : A -> M B) (e : event) :
  In e (trace m) -> In e (trace (bind m f)).
Proof.
  intros Hin. destruct (trace_bind_prefix m f) as (t' & ->).
  apply in_or_app. now left.
Qed.

Lemma Forall_bind {A B} (P : event -> Prop) (m : M A) (f : A -> M B) :
  Forall P (trace m) -> (forall a, Forall P (trace (f a))) ->
  Forall P (trace (bind m f)).
Proof.
  destruct m as [t [a|e]]; unfold bind, trace; simpl; intros Hm Hf; auto.
  specialize (Hf a). destruct (f a) as [t' r]. simpl in *.
  apply Forall_app. now split.
Qed.

Lemma Forall_for_each {A} (P : event -> Prop) (ys : list A)
      (body : A -> M unit) :
  (forall y, Forall P (trace (body y))) ->
  Forall P (trace (for_each ys body)).
Proof.
  intros Hb. induction ys as [|y ys IH]; simpl.
  - constructor.
  - apply Forall_bind; auto.
Qed.

Lemma trace_try_pass (m : M unit) : trace (try_pass m) = trace m.
Proof. now destruct m as [t [a|e]]. Qed.

Lemma outcome_try_pass (m : M unit) : outcome (try_pass m) = Ok tt.
Proof. now destruct m as [t [a|e]]. Qed.

Lemma surjective_M {A} (m : M A) : m = (trace m, outcome m).
Proof. now destruct m. Qed.

(** A factory that cannot fail: the delegation is logged and the element
    drawn. *)
Lemma draw_sub_in_built {T} {E : ScreenElement T} (self_area : Rect)
      (factory : Rect -> M T) (rel : option Rect) (el : T) :
  factory (match rel with
           | None => self_area
           | Some a => _inner_area self_area a
           end) = ret el ->
  _draw_sub_in self_area factory rel
  = (Sub (class_of el) (_area el) :: trace (draw el), outcome (draw el)).
Proof.
  intros Hf. unfold _draw_sub_in. rewrite Hf.
  unfold ret, tell, bind, trace, outcome; simpl. now destruct (draw el).
Qed.

(** ** Invariants of what the elements log

    [P] is a property of log entries and [Q] the areas on which every
    [_draw_str] keeps to it; [Q] passes from an area to any area clamped
    into it.  Then every element drawn over a [Q] area keeps to [P], as
    long as [P] allows the delegations. *)

Section TraceInvariant.

Variable ar : Z -> Z -> string -> bool.
Variable P : event -> Prop.
Variable Q : Rect -> Prop.

Hypothesis Q_inner : forall a b, Q a -> Q (_inner_area a b).
Hypothesis P_draw_str :
  forall area y x s, Q area -> Forall P (trace (_draw_str ar area y x s None)).

Lemma inv_Noising_draw (self : Noising) :
  Q (n_area self) -> Forall P (trace (Noising_draw ar self)).
Proof.
  intros HQ. rewrite Noising_draw_repeated.
  apply Forall_for_each. intros y. now apply P_draw_str.
Qed.

Lemma inv_RemainingTime_draw (self : RemainingTime) :
  Q (rt_area self) -> Forall P (trace (RemainingTime_draw ar self)).
Proof. intros HQ. now apply P_draw_str. Qed.

Lemma inv_ExitHint_draw (self : ExitHint) :
  Q (eh_area self) -> Forall P (trace (ExitHint_draw ar self)).
Proof. intros HQ. now apply P_draw_str. Qed.

Lemma inv_BorderBox_draw (self : BorderBox) :
  Q (bb_area self) ->
  (forall ca, Forall P (trace (bb_content self ca))) ->
  Forall P (trace (BorderBox_draw ar self)).
Proof.
  intros HQ Hc. unfold BorderBox_draw. rewrite trace_try_pass.
  destruct (size (bb_area self)) as [height width].
  apply Forall_bind; [now apply P_draw_str|]. intros _.
  apply Forall_bind.
  { apply Forall_for_each. intros y.
    apply Forall_bind; [now apply P_draw_str|]. intros _.
    now apply P_draw_str. }
  intros _. apply Forall_bind; [now apply P_draw_str|]. intros _.
  destruct (_ && _); [apply Hc | constructor].
Qed.

(** The delegations of [Monitor.draw], each under the gate that guards
    it. *)
Lemma inv_Monitor_main_content (self : Monitor) :
  let h := vy (size (m_area self)) in
  let w := vx (size (m_area self)) in
  Q (m_area self) ->
  (5 <= h -> forall a, P (Sub CBorderBox a)) ->
  (3 <= h ->
   forall a, P (Sub (CNoising (chosen_filler h w (m_noise self))) a)) ->
  Forall P (trace (Monitor_main_content ar self)).
Proof.
  intros h w HQ HPb HPn. unfold Monitor_main_content.
  unfold chosen_filler in HPn. subst h w.
  destruct (size (m_area self)) as [height width]; simpl in HPb, HPn.
  destruct (Z.geb_spec height 3) as [H3|H3]; [|constructor].
  specialize (HPn ltac:(lia)).
  set (k := if width >=? _ then NoisingExpanded else NoisingCompressed) in *.
  assert (Hfill : forall rel,
             Forall P (trace (@_draw_sub_in _ (Noising_element ar)
                                (m_area self)
                                (Noising_init k (m_noise self)) (Some rel)))).
  { intros rel. erewrite draw_sub_in_built by reflexivity.
    constructor; [apply HPn|].
    apply inv_Noising_draw. simpl. now apply Q_inner. }
  destruct (Z.geb_spec height 5) as [H5|H5]; [|apply Hfill].
  erewrite draw_sub_in_built by reflexivity.
  constructor; [apply HPb; lia|].
  apply inv_BorderBox_draw; [simpl; now apply Q_inner | exact Hfill].
Qed.

Lemma inv_Monitor_remaining_time (self : Monitor) :
  Q (m_area self) ->
  (2 <= vy (size (m_area self)) -> m_rem_sec self <> None ->
   forall a, P (Sub CRemainingTime a)) ->
  Forall P (trace (Monitor_remaining_time ar self)).
Proof.
  intros HQ HPr. unfold Monitor_remaining_time.
  destruct (size (m_area self)) as [height width]; simpl in HPr.
  destruct (Z.geb_spec height 2) as [H2|H2]; [|constructor].
  destruct (m_rem_sec self) as [r|]; [|constructor].
  unfold _draw_sub. destruct (r >? 0) eqn:Hr.
  - erewrite draw_sub_in_built
      by (unfold RemainingTime_init; rewrite Hr; reflexivity).
    constructor; [apply HPr; [lia|discriminate]|].
    now apply inv_RemainingTime_draw.
  - unfold _draw_sub_in, RemainingTime_init. rewrite Hr. constructor.
Qed.

Lemma inv_Monitor_exit_hint (self : Monitor) :
  Q (m_area self) ->
  (1 <= vy (size (m_area self)) -> forall a, P (Sub CExitHint a)) ->
  Forall P (trace (Monitor_exit_hint ar self)).
Proof.
  intros HQ HPh. unfold Monitor_exit_hint.
  destruct (size (m_area self)) as [height width]; simpl in HPh.
  destruct (Z.geb_spec height 1) as [H1|H1]; [|constructor].
  unfold _draw_sub. erewrite draw_sub_in_built by reflexivity.
  constructor; [apply HPh; lia|]. now apply inv_ExitHint_draw.
Qed.

Lemma inv_Monitor_draw (self : Monitor) :
  let h := vy (size (m_area self)) in
  let w := vx (size (m_area self)) in
  Q (m_area self) ->
  (5 <= h -> forall a, P (Sub CBorderBox a)) ->
  (3 <= h ->
   forall a, P (Sub (CNoising (chosen_filler h w (m_noise self))) a)) ->
  (2 <= h -> m_rem_sec self <> None -> forall a, P (Sub CRemainingTime a)) ->
  (1 <= h -> forall a, P (Sub CExitHint a)) ->
  Forall P (trace (Monitor_draw ar self)).
Proof.
  intros h w HQ HPb HPn HPr HPh. unfold Monitor_draw.
  apply Forall_bind; [now apply inv_Monitor_main_content|]. intros _.
  apply Forall_bind; [now apply inv_Monitor_remaining_time|]. intros _.
  now apply inv_Monitor_exit_hint.
Qed.

End TraceInvariant.

(** *** On any area, what [_draw_str] logs is at most one write *)

Lemma draw_str_trace (ar : Z -> Z -> string -> bool)
      (area : Rect) (y x : Z) (s : string) :
  trace (_draw_str ar area y x s None) = []
  \/ exists y' x' s', trace (_draw_str ar area y x s None) = [Addstr y' x' s'].
Proof.
  destruct (Z_lt_le_dec y 0) as [Hy|Hy];
    [left; destruct (draw_str_out ar area y x s None) as (m & ->);
     [lia|reflexivity]|].
  destruct (Z_lt_le_dec y (vy (size area))) as [Hy'|Hy'];
    [|left; destruct (draw_str_out ar area y x s None) as (m & ->);
      [lia|reflexivity]].
  destruct (Z_lt_le_dec x 0) as [Hx|Hx];
    [left; destruct (draw_str_out ar area y x s None) as (m & ->);
     [lia|reflexivity]|].
  destruct (Z_lt_le_dec x (vx (size area))) as [Hx'|Hx'];
    [|left; destruct (draw_str_out ar area y x s None) as (m & ->);
      [lia|reflexivity]].
  right. rewrite draw_str_in by lia. now eexists _, _, _.
Qed.

Lemma draw_str_keeps (ar : Z -> Z -> string -> bool) (P : event -> Prop)
      (area : Rect) (y x : Z) (s : string) :
  (forall y' x' s', P (Addstr y' x' s')) ->
  Forall P (trace (_draw_str ar area y x s None)).
Proof.
  intros HP. destruct (draw_str_trace ar area y x s) as [->|(y' & x' & s' & ->)];
    repeat constructor. apply HP.
Qed.

(** *** On an area without room nothing is written *)

Lemma no_room_inner (a b : Rect) : no_room a -> no_room (_inner_area a b).
Proof. unfold no_room, _inner_area; simpl. lia. Qed.

Lemma draw_str_no_room (ar : Z -> Z -> string -> bool)
      (area : Rect) (y x : Z) (s : string) h :
  no_room area ->
  exists msg, _draw_str ar area y x s h = ([], Raise (RequireError msg)).
Proof. intros Hn. apply draw_str_out. unfold no_room in Hn. lia. Qed.

Lemma draw_str_no_room_keeps (ar : Z -> Z -> string -> bool)
      (P : event -> Prop) (area : Rect) (y x : Z) (s : string) :
  no_room area -> Forall P (trace (_draw_str ar area y x s None)).
Proof.
  intros Hn. destruct (draw_str_no_room ar area y x s None Hn) as (m & ->).
  constructor.
Qed.

Lemma writes_nil_of_Forall (t : list event) :
  Forall (fun e => match e with Addstr _ _ _ => False | _ => True end) t ->
  writes t = [].
Proof.
  induction 1 as [|e t He _ IH]; [reflexivity|].
  unfold writes in *. simpl. destruct e; try contradiction; exact IH.
Qed.

Lemma BorderBox_draw_no_room (ar : Z -> Z -> string -> bool)
      (self : BorderBox) :
  no_room (bb_area self) -> BorderBox_draw ar self = ([], Ok tt).
Proof.
  intros Hn. unfold BorderBox_draw.
  destruct (size (bb_area self)) as [height width] eqn:Es.
  match goal with
  | |- context [_draw_str ar ?a 0 0 ?s None] =>
    destruct (draw_str_no_room ar a 0 0 s None Hn) as (m & E)
  end.
  now rewrite (bind_Raise _ _ _ _ E).
Qed.

Lemma Monitor_draw_no_rows (ar : Z -> Z -> string -> bool) (self : Monitor) :
  vy (size (m_area self)) <= 0 -> Monitor_draw ar self = ([], Ok tt).
Proof.
  intros Hh.
  unfold Monitor_draw, Monitor_main_content, Monitor_remaining_time,
    Monitor_exit_hint.
  destruct (size (m_area self)) as [height width]; simpl in Hh.
  destruct (Z.geb_spec height 3); [lia|].
  destruct (Z.geb_spec height 2); [lia|].
  destruct (Z.geb_spec height 1); [lia|]. reflexivity.
Qed.

(** C8, as the code has it.  For every screen element whose area has no rows
    or no columns, [draw] writes nothing to the surface.  It is not always a
    no-op: [ExitHint] and [RemainingTime] fail the bounds check of
    [_abs_coords]; a [BorderBox] swallows that failure and returns; a filler
    or a [Monitor] without rows has nothing to do and returns. *)
Theorem C8_empty_area_draw_writes_nothing
        (ar : Z -> Z -> string -> bool) (el : element) :
  let area := @_area element (element_element ar) el in
  let drawn := @draw element (element_element ar) el in
  vy (size area) = 0 \/ vx (size area) = 0 ->
  writes (trace drawn) = []
  /\ match el with
     | ElBorderBox _ => outcome drawn = Ok tt
     | ElNoising _ | ElMonitor _ => vy (size area) = 0 -> outcome drawn = Ok tt
     | ElRemainingTime _ | ElExitHint _ =>
       exists msg, outcome drawn = Raise (RequireError msg)
     end.
Proof.
  intros area drawn Hz.
  assert (Hn : no_room area) by (unfold no_room; lia).
  destruct el as [e|e|e|e|e]; simpl in area, drawn, Hn; subst drawn.
  - rewrite (BorderBox_draw_no_room ar e Hn). now split.
  - split.
    + apply writes_nil_of_Forall.
      apply (inv_Noising_draw ar _ no_room); [|exact Hn].
      intros. now apply draw_str_no_room_keeps.
    + intros Hh. rewrite Noising_draw_repeated. subst area.
      simpl in Hh. now rewrite Hh.
  - destruct (draw_str_no_room ar (rt_area e)
                (vy (size (rt_area e)) - 2) 0
                ("Noising time remaining: " ++ format_remaining_time e)
                None Hn) as (m & E).
    unfold RemainingTime_draw. rewrite E. split; [reflexivity|now exists m].
  - destruct (draw_str_no_room ar (eh_area e)
                (vy (size (eh_area e)) - 1) 0 "Press ESC to stop"
                None Hn) as (m & E).
    unfold ExitHint_draw. rewrite E. split; [reflexivity|now exists m].
  - split.
    + apply writes_nil_of_Forall.
      apply (inv_Monitor_draw ar _ no_room); try exact Hn; try (intros; exact I).
      * apply no_room_inner.
      * intros. now apply draw_str_no_room_keeps.
    + intros Hh. rewrite Monitor_draw_no_rows; [reflexivity|].
      subst area. simpl in Hh. lia.
Qed.

(** ** The pieces of [Monitor.draw], one by one *)

Lemma trace_bind_Ok {A B} (m : M A) (f : A -> M B) (t : list event) (a : A) :
  m = (t, Ok a) -> trace (bind m f) = t ++ trace (f a).
Proof. intros E. now rewrite (bind_Ok _ _ _ _ E). Qed.


Section MonitorPieces.

Variable ar : Z -> Z -> string -> bool.
Variable self : Monitor.

Local Abbreviation area := (m_area self).
Local Abbreviation h := (vy (size (m_area self))).
Local Abbreviation w := (vx (size (m_area self))).

Lemma band_area :
  _inner_area area (mkRect (mkVector2D 0 0) (mkVector2D (h - 2) w))
  = mkRect (offset area) (mkVector2D (h - 2) w).
Proof.
  unfold _inner_area.
  destruct (m_area self) as [[oy ox] [height width]]; simpl.
  rewrite !Z.add_0_r, Z.min_id. f_equal. f_equal. lia.
Qed.

(** From three rows on, the first thing the main content does is delegate
    the band: to a [BorderBox] from five rows on, to the filler below. *)
Lemma Monitor_main_content_head :
  3 <= h ->
  exists t,
    trace (Monitor_main_content ar self)
    = Sub (if h >=? 5 then CBorderBox
           else CNoising (chosen_filler h w (m_noise self)))
          (mkRect (offset area) (mkVector2D (h - 2) w)) :: t.
Proof.
  intros H3. rewrite <- band_area.
  unfold Monitor_main_content, chosen_filler.
  destruct (size (m_area self)) as [height width]; simpl in *.
  destruct (Z.geb_spec height 3); [|lia].
  destruct (height >=? 5).
  - erewrite draw_sub_in_built by reflexivity. now eexists.
  - erewrite draw_sub_in_built by reflexivity. now eexists.
Qed.


(** With at least one column the main content cannot fail. *)
Lemma Monitor_main_content_Ok :
  1 <= w -> outcome (Monitor_main_content ar self) = Ok tt.
Proof.
  intros Hw. unfold Monitor_main_content.
  destruct (size (m_area self)) as [height width] eqn:Es; simpl in *.
  destruct (height >=? 3); [|reflexivity].
  destruct (height >=? 5).
  - erewrite draw_sub_in_built by reflexivity.
    unfold outcome at 1. simpl snd. simpl draw.
    unfold BorderBox_draw. apply outcome_try_pass.
  - erewrite draw_sub_in_built by reflexivity.
    unfold outcome at 1. simpl snd. simpl draw.
    rewrite Noising_draw_rows; [reflexivity|].
    simpl. rewrite Es. simpl. lia.
Qed.

Lemma Monitor_remaining_time_eq :
  1 <= w -> (forall r, m_rem_sec self = Some r -> 0 < r) ->
  Monitor_remaining_time ar self
  = (match m_rem_sec self with
     | Some r =>
       if h >=? 2 then
         [Sub CRemainingTime area;
          Addstr (vy (offset area) + (h - 2)) (vx (offset area) + 0)
                 (PyStr.slice_to
                    ("Noising time remaining: " ++ format_time r) w)]
       else []
     | None => []
     end, Ok tt).
Proof.
  intros Hw Hr. unfold Monitor_remaining_time.
  destruct (size (m_area self)) as [height width] eqn:Es; simpl in *.
  destruct (m_rem_sec self) as [r|];
    [|destruct (height >=? 2); reflexivity].
  specialize (Hr r eq_refl).
  destruct (Z.geb_spec height 2); [|reflexivity].
  unfold _draw_sub.
  erewrite draw_sub_in_built
    by (unfold RemainingTime_init;
        replace (r >? 0) with true by lia; reflexivity).
  simpl draw. unfold RemainingTime_draw. cbn [rt_area].
  rewrite draw_str_in by (rewrite Es; simpl; lia).
  rewrite Es. reflexivity.
Qed.

Lemma Monitor_exit_hint_eq :
  1 <= w ->
  Monitor_exit_hint ar self
  = (if h >=? 1 then
       [Sub CExitHint area;
        Addstr (vy (offset area) + (h - 1)) (vx (offset area) + 0)
               (PyStr.slice_to "Press ESC to stop" w)]
     else [], Ok tt).
Proof.
  intros Hw. unfold Monitor_exit_hint.
  destruct (size (m_area self)) as [height width] eqn:Es; simpl in *.
  destruct (Z.geb_spec height 1); [|reflexivity].
  unfold _draw_sub. erewrite draw_sub_in_built by reflexivity.
  simpl draw. unfold ExitHint_draw. cbn [eh_area].
  rewrite draw_str_in by (rewrite Es; simpl; lia).
  rewrite Es. reflexivity.
Qed.

End MonitorPieces.

(** ** [Monitor]: the layout decisions *)

Lemma Monitor_draw_keeps (ar : Z -> Z -> string -> bool) (P : event -> Prop)
      (self : Monitor) :
  let h := vy (size (m_area self)) in
  let w := vx (size (m_area self)) in
  (forall y x s, P (Addstr y x s)) ->
  (5 <= h -> forall a, P (Sub CBorderBox a)) ->
  (3 <= h ->
   forall a, P (Sub (CNoising (chosen_filler h w (m_noise self))) a)) ->
  (2 <= h -> m_rem_sec self <> None -> forall a, P (Sub CRemainingTime a)) ->
  (1 <= h -> forall a, P (Sub CExitHint a)) ->
  forall e, In e (trace (Monitor_draw ar self)) -> P e.
Proof.
  intros h w HPw HPb HPn HPr HPh. apply Forall_forall.
  apply (inv_Monitor_draw ar P (fun _ => True)); auto.
  intros. now apply draw_str_keeps.
Qed.


(** C5, as the code has it.  For every area of [Monitor] at least one
    column wide, and remaining seconds absent or strictly positive, the
    draw returns normally and its three gates act independently: the
    content band (rows [0, height - 2) at full width) is delegated, to the
    box or to a filler, if and only if the height is at least 3;
    [RemainingTime] is delegated over the full area if and only if the
    height is at least 2 and the remaining seconds are present; [ExitHint]
    is delegated over the full area if and only if the height is at least
    1.  In particular an area of height 1 draws the exit hint and nothing
    else. *)
Theorem C5_monitor_gates_when_room
        (ar : Z -> Z -> string -> bool) (self : Monitor) :
  let area := m_area self in
  let h := vy (size area) in
  let w := vx (size area) in
  let band := mkRect (offset area) (mkVector2D (h - 2) w) in
  let tr := trace (Monitor_draw ar self) in
  1 <= w ->
  (forall r, m_rem_sec self = Some r -> 0 < r) ->
  outcome (Monitor_draw ar self) = Ok tt
  /\ ((exists c, (c = CBorderBox \/ exists k, c = CNoising k)
                 /\ In (Sub c band) tr) <-> 3 <= h)
  /\ (In (Sub CRemainingTime area) tr <-> 2 <= h /\ m_rem_sec self <> None)
  /\ (In (Sub CExitHint area) tr <-> 1 <= h)
  /\ (h = 1 ->
      tr = [Sub CExitHint area;
            Addstr (vy (offset area)) (vx (offset area))
                   (PyStr.slice_to "Press ESC to stop" w)]).
Proof.
  intros area h w band tr Hw Hrem.
  pose proof (Monitor_main_content_Ok ar self Hw) as Hmain.
  pose proof (Monitor_remaining_time_eq ar self Hw Hrem) as Hrt.
  pose proof (Monitor_exit_hint_eq ar self Hw) as Heh.
  fold area h w in Hrt, Heh.
  assert (Hdraw : Monitor_draw ar self
                  = (trace (Monitor_main_content ar self)
                       ++ fst (Monitor_remaining_time ar self)
                       ++ fst (Monitor_exit_hint ar self), Ok tt)).
  { unfold Monitor_draw.
    rewrite (surjective_M (Monitor_main_content ar self)) at 1.
    rewrite Hmain, Hrt, Heh. reflexivity. }
  assert (Htr : tr = trace (Monitor_main_content ar self)
                       ++ fst (Monitor_remaining_time ar self)
                       ++ fst (Monitor_exit_hint ar self))
    by (subst tr; now rewrite Hdraw).
  split; [now rewrite Hdraw|].
  split; [|split; [|split]].
  - split.
    + intros (c & Hc & Hin).
      apply (Monitor_draw_keeps ar
               (fun e => match e with
                         | Sub CBorderBox _ | Sub (CNoising _) _ => 3 <= h
                         | _ => True
                         end) self) in Hin; auto.
      * destruct Hc as [->|(k & ->)]; exact Hin.
      * intros; unfold h, area; lia.
    + intros H3. destruct (Monitor_main_content_head ar self H3) as (t & E).
      fold area h w in E. eexists. split.
      2:{ rewrite Htr. apply in_or_app. left. rewrite E. left. reflexivity. }
      destruct (h >=? 5); [now left | right; now eexists].
  - split.
    + intros Hin.
      apply (Monitor_draw_keeps ar
               (fun e => match e with
                         | Sub CRemainingTime _ =>
                           2 <= h /\ m_rem_sec self <> None
                         | _ => True
                         end) self) in Hin; auto.
    + intros [H2 Hsome]. rewrite Htr, Hrt. simpl fst.
      destruct (m_rem_sec self) as [r|]; [|congruence].
      destruct (Z.geb_spec h 2); [|lia].
      apply in_or_app. right. apply in_or_app. left. now left.
  - split.
    + intros Hin.
      apply (Monitor_draw_keeps ar
               (fun e => match e with
                         | Sub CExitHint _ => 1 <= h
                         | _ => True
                         end) self) in Hin; auto.
    + intros H1. rewrite Htr, Heh. simpl fst.
      destruct (Z.geb_spec h 1); [|lia].
      apply in_or_app. right. apply in_or_app. right. now left.
  - intros H1. rewrite Htr, Hrt, Heh. simpl fst.
    assert (Hm : trace (Monitor_main_content ar self) = []).
    { unfold Monitor_main_content. fold area.
      destruct (size area) as [height width] eqn:Es. subst h. simpl in H1.
      destruct (Z.geb_spec height 3); [lia|reflexivity]. }
    rewrite Hm, H1. simpl.
    destruct (m_rem_sec self); simpl; now rewrite !Z.add_0_r.
Qed.

(** * Concrete runs *)

(** A compressed filler of noise ["X"] over two rows of five columns. *)
Lemma C1_witness_X_5 :
  1 <= 5
  /\ Noising_draw never_raises
       (mkNoising NoisingCompressed (from_dimensions 0 0 2 5) "X")
     = ([Addstr 0 0 "X X X"; Addstr 1 0 "X X X"], Ok tt).
Proof.
  split; [lia|].
  destruct (C1_filler_line_fills_every_row never_raises NoisingCompressed "X"
              (from_dimensions 0 0 2 5) ltac:(simpl; lia))
    as (_ & _ & _ & H & _).
  exact H.
Defined.

(** C5 fails as stated: over three rows and no column the filler of the
    band fails the bounds check, the failure leaves [Monitor.draw], and the
    exit hint is never delegated although the height is at least 1. *)
Lemma C5_counterexample_no_columns :
  ~ (In (Sub CExitHint (from_dimensions 0 0 3 0))
        (trace (Monitor_draw never_raises
                  (mkMonitor (from_dimensions 0 0 3 0) "beep" None)))
     <-> 1 <= 3).
Proof.
  intros [_ H]. specialize (H ltac:(lia)). vm_compute in H.
  destruct H as [H|[]]. discriminate H.
Qed.

(** One row of twenty columns: the exit hint and nothing else. *)
Lemma C5_witness_one_row :
  1 <= 20
  /\ (forall r, @None Z = Some r -> 0 < r)
  /\ trace (Monitor_draw never_raises
              (mkMonitor (from_dimensions 0 0 1 20) "beep" None))
     = [Sub CExitHint (from_dimensions 0 0 1 20);
        Addstr 0 0 "Press ESC to stop"].
Proof.
  split; [lia|]. split; [discriminate|].
  destruct (C5_monitor_gates_when_room never_raises
              (mkMonitor (from_dimensions 0 0 1 20) "beep" None)
              ltac:(simpl; lia) ltac:(discriminate))
    as (_ & _ & _ & _ & H).
  exact (H eq_refl).
Defined.

(** C6 fails as stated: 90 seconds are not shown as ["01:30"]. *)
Lemma C6_counterexample_90 : format_time 90 <> "01:30"%string.
Proof. vm_compute. discriminate. Qed.

Lemma C6_witness_90 : 0 < 90 /\ format_time 90 = "00:01"%string.
Proof.
  split; [lia|].
  destruct (C6_format_time_tiers 90 ltac:(lia)) as (_ & _ & _ & _ & H & _).
  exact H.
Defined.

(** C8 fails as stated: on the default, empty [Rect] the exit hint writes
    nothing but does not return normally. *)
Lemma C8_counterexample_exit_hint :
  ~ (writes (trace (ExitHint_draw never_raises (mkExitHint Rect_default))) = []
     /\ outcome (ExitHint_draw never_raises (mkExitHint Rect_default)) = Ok tt).
Proof. intros [_ H]. vm_compute in H. discriminate H. Qed.

(** An empty box never reaches its content, whatever the content would
    write. *)
Lemma C8_witness_empty_box :
  (vy (size Rect_default) = 0 \/ vx (size Rect_default) = 0)
  /\ writes (trace (BorderBox_draw never_raises
                      (mkBorderBox Rect_default
                                   (fun _ => tell (Addstr 0 0 "x"))))) = []
  /\ outcome (BorderBox_draw never_raises
                (mkBorderBox Rect_default (fun _ => tell (Addstr 0 0 "x"))))
     = Ok tt.
Proof.
  split; [now left|].
  exact (C8_empty_area_draw_writes_nothing never_raises
           (ElBorderBox (mkBorderBox Rect_default
                                     (fun _ => tell (Addstr 0 0 "x"))))
           (or_introl eq_refl)).
Defined.

(** ESC with a minute left and a full screen to draw. *)
Lemma C9_witness_esc :
  getch (mkTick (F := exact_clock) 27 (24, 80) 5%Q 5%Q) = 27
  /\ _frame never_raises 409
            (mkApp (F := exact_clock) "beep" 60 0%Q true 0%Q)
            (mkTick (F := exact_clock) 27 (24, 80) 5%Q 5%Q)
     = ([], Ok (false, mkApp (F := exact_clock) "beep" 60 0%Q true 0%Q)).
Proof.
  split; [reflexivity|].
  apply C9_esc_stops_without_drawing. reflexivity.
Defined.

(** * Further properties *)

(** ** [_draw_str], [_abs_coords] and [_inner_area] *)

Lemma len_slice_to_min (s : string) (n : Z) :
  0 <= n -> PyStr.len (PyStr.slice_to s n) = Z.min (PyStr.len s) n.
Proof.
  intros Hn. unfold PyStr.slice_to.
  destruct (Z.leb_spec 0 n); [|lia].
  unfold PyStr.len. rewrite length_take. lia.
Qed.

(** X1. [_draw_str] at a local position inside the element issues exactly
    one [addstr], at offset + local, of the text cut to the element's
    width; if the backend accepts the write, or refuses it and there is no
    handler, the method returns normally, and if it refuses and there is a
    handler the handler runs after the write.  At a position outside the
    element nothing is written, the handler is not run, and the method
    fails with the error of the bounds check. *)
Theorem X1_draw_str_behaviour
        (ar : Z -> Z -> string -> bool) (area : Rect) (y x : Z) (s : string) :
  let Y := vy (offset area) + y in
  let X := vx (offset area) + x in
  let text := PyStr.slice_to s (vx (size area)) in
  let inside := 0 <= y < vy (size area) /\ 0 <= x < vx (size area) in
  (inside ->
   _draw_str ar area y x s None = ([Addstr Y X text], Ok tt)
   /\ forall handler,
       _draw_str ar area y x s (Some handler)
       = if ar Y X text
         then (Addstr Y X text :: trace (handler CursesError),
               outcome (handler CursesError))
         else ([Addstr Y X text], Ok tt))
  /\ (~ inside ->
      exists msg, forall h,
          _draw_str ar area y x s h = ([], Raise (RequireError msg)))
  /\ (outcome (_draw_str ar area y x s None) = Ok tt <-> inside).
Proof.
  intros Y X text inside.
  assert (Hin : inside ->
                _draw_str ar area y x s None = ([Addstr Y X text], Ok tt))
    by (intros [Hy Hx]; now apply draw_str_in).
  assert (Hout : ~ inside ->
                 exists msg, forall h,
                     _draw_str ar area y x s h = ([], Raise (RequireError msg))).
  { intros Hn. destruct (abs_coords_out area y x Hn) as (msg & E).
    exists msg. intros h. unfold _draw_str. now rewrite (bind_Raise _ _ _ _ E). }
  split; [|split; [exact Hout|]].
  - intros Hi. split; [now apply Hin|]. intros handler.
    destruct Hi as [Hy Hx]. unfold _draw_str.
    rewrite (bind_Ok _ _ _ _ (abs_coords_in area y x Hy Hx)).
    unfold addstr, trace, outcome, try_curses, bind; simpl.
    fold Y X text. destruct (ar Y X text); [|reflexivity].
    now destruct (handler CursesError).
  - split.
    + intros Hok.
      destruct (Z_lt_le_dec y 0); [|destruct (Z_lt_le_dec y (vy (size area)));
        [destruct (Z_lt_le_dec x 0);
         [|destruct (Z_lt_le_dec x (vx (size area)));
           [unfold inside; lia|]]|]];
        (destruct Hout as (msg & E); [unfold inside; lia|];
         rewrite E in Hok; discriminate Hok).
    + intros Hi. now rewrite (Hin Hi).
Qed.

Lemma X1_witness :
  (0 <= 0 < 1 /\ 0 <= 3 < 5)
  /\ _draw_str always_raises (from_dimensions 2 4 1 5) 0 3 "abcdef" None
     = ([Addstr 2 7 "abcde"], Ok tt).
Proof.
  split; [lia|].
  destruct (X1_draw_str_behaviour always_raises (from_dimensions 2 4 1 5)
              0 3 "abcdef") as (H & _).
  exact (proj1 (H ltac:(simpl; lia))).
Defined.

(** X2. The text [_draw_str] writes is the first [min(len(text), cols)]
    characters, so a write stays on the cells of the element exactly when
    the local column plus that length does not pass the element's width; a
    write at local column 0 always does. *)
Theorem X2_draw_str_stays_inside
        (ar : Z -> Z -> string -> bool) (area : Rect) (y x : Z) (s : string) :
  0 <= y < vy (size area) -> 0 <= x < vx (size area) ->
  exists e,
    trace (_draw_str ar area y x s None) = [e]
    /\ (write_inside area e
        <-> x + Z.min (PyStr.len s) (vx (size area)) <= vx (size area))
    /\ (x = 0 -> write_inside area e).
Proof.
  intros Hy Hx. rewrite draw_str_in by assumption.
  eexists. split; [reflexivity|].
  unfold write_inside. rewrite len_slice_to_min by lia.
  split; [split|]; intros; lia.
Qed.

Lemma X2_witness :
  (0 <= 0 < 1) /\ (0 <= 0 < 5)
  /\ exists e,
      trace (_draw_str never_raises (from_dimensions 0 0 1 5) 0 0
                       "Press ESC to stop" None) = [e]
      /\ write_inside (from_dimensions 0 0 1 5) e.
Proof.
  split; [lia|]. split; [lia|].
  destruct (X2_draw_str_stays_inside never_raises (from_dimensions 0 0 1 5)
              0 0 "Press ESC to stop" ltac:(simpl; lia) ltac:(simpl; lia))
    as (e & He & _ & H0).
  exists e. split; [exact He | exact (H0 eq_refl)].
Defined.

(** X3. Clamping composes: clamping [c] into the clamp of [b] into [a] is
    clamping into [a] the clamp of [c] into [b].  Clamping an element's own
    size at offset zero gives the element's area back, so [_draw_sub] is
    [_draw_sub_in] over that rectangle.  A clamped size never exceeds the
    parent's, and is not negative when neither size is. *)
Theorem X3_inner_area_algebra (a b c : Rect) :
  _inner_area (_inner_area a b) c = _inner_area a (_inner_area b c)
  /\ _inner_area a (mkRect (mkVector2D 0 0) (size a)) = a
  /\ (forall T (E : ScreenElement T) (factory : Rect -> M T),
      @_draw_sub T E a factory
      = @_draw_sub_in T E a factory (Some (mkRect (mkVector2D 0 0) (size a))))
  /\ vy (size (_inner_area a b)) <= vy (size a)
  /\ vx (size (_inner_area a b)) <= vx (size a)
  /\ (0 <= vy (size a) -> 0 <= vy (size b) -> 0 <= vy (size (_inner_area a b)))
  /\ (0 <= vx (size a) -> 0 <= vx (size b) -> 0 <= vx (size (_inner_area a b))).
Proof.
  assert (Hid : _inner_area a (mkRect (mkVector2D 0 0) (size a)) = a).
  { destruct a as [[oy ox] [h w]]. unfold _inner_area; simpl.
    now rewrite !Z.add_0_r, !Z.min_id. }
  split; [|split; [exact Hid|split]].
  - unfold _inner_area; simpl. f_equal; f_equal; lia.
  - intros T E factory. unfold _draw_sub, _draw_sub_in. now rewrite Hid.
  - unfold _inner_area; simpl. repeat split; lia.
Qed.

Lemma X3_witness :
  0 <= 3 /\ 0 <= 7
  /\ 0 <= vy (size (_inner_area (from_dimensions 0 0 3 9)
                                (from_dimensions 1 1 7 2))).
Proof.
  split; [lia|]. split; [lia|].
  destruct (X3_inner_area_algebra (from_dimensions 0 0 3 9)
              (from_dimensions 1 1 7 2) Rect_default)
    as (_ & _ & _ & _ & _ & H & _).
  exact (H ltac:(simpl; lia) ltac:(simpl; lia)).
Defined.

(** ** [BorderBox] *)

Lemma len_horizon_border (w : Z) : 1 <= w -> PyStr.len (horizon_border w) = w.
Proof.
  intros Hw. unfold horizon_border.
  destruct (Z.geb_spec w 2) as [H2|H2].
  - rewrite !len_append, len_mul by lia.
    unfold PyStr.len; simpl String.length. lia.
  - unfold PyStr.len; simpl String.length. lia.
Qed.

Lemma inner_of_box (area : Rect) :
  let h := vy (size area) in
  let w := vx (size area) in
  _inner_area area (from_dimensions 1 1 (h - 2) (w - 2))
  = mkRect (mkVector2D (vy (offset area) + 1) (vx (offset area) + 1))
           (mkVector2D (h - 2) (w - 2)).
Proof.
  destruct area as [[oy ox] [h w]]. unfold _inner_area; simpl.
  f_equal. f_equal; lia.
Qed.

(** With at least one row and one column the whole frame is drawn, then the
    content on the interior if there is one. *)
Lemma BorderBox_draw_frame (ar : Z -> Z -> string -> bool) (self : BorderBox) :
  let area := bb_area self in
  let h := vy (size area) in
  let w := vx (size area) in
  1 <= h -> 1 <= w ->
  BorderBox_draw ar self
  = (border_frame area
       ++ (if (3 <=? h) && (3 <=? w)
           then trace (bb_content self
                         (mkRect (mkVector2D (vy (offset area) + 1)
                                             (vx (offset area) + 1))
                                 (mkVector2D (h - 2) (w - 2))))
           else []),
     Ok tt).
Proof.
  intros area h w Hh Hw.
  rewrite (surjective_M (BorderBox_draw ar self)).
  unfold BorderBox_draw at 2. rewrite outcome_try_pass.
  unfold BorderBox_draw. rewrite trace_try_pass.
  subst h w area. rewrite <- (inner_of_box (bb_area self)).
  unfold border_frame.
  destruct (size (bb_area self)) as [height width] eqn:Es. simpl in Hh, Hw.
  assert (Hhb : (if width >=? 2
                 then ("+" ++ PyStr.mul "-" (Z.max 0 (width - 2)) ++ "+")%string
                 else "+"%string) = horizon_border width).
  { unfold horizon_border. destruct (Z.geb_spec width 2); [|reflexivity].
    now rewrite Z.max_r by lia. }
  rewrite Hhb.
  assert (Hcut : PyStr.slice_to (horizon_border width) (vx (size (bb_area self)))
                 = horizon_border width).
  { apply slice_to_all. rewrite len_horizon_border, Es by lia. simpl. lia. }
  assert (Hbar : PyStr.slice_to "|" (vx (size (bb_area self))) = "|"%string).
  { apply slice_to_all. rewrite Es.
    unfold PyStr.len; simpl String.length; simpl vx. lia. }
  erewrite trace_bind_Ok by (apply draw_str_in; rewrite Es; simpl; lia).
  erewrite trace_bind_Ok.
  2:{ apply for_each_Ok
        with (f := fun y => [Addstr (vy (offset (bb_area self)) + y)
                                    (vx (offset (bb_area self))) "|";
                             Addstr (vy (offset (bb_area self)) + y)
                                    (vx (offset (bb_area self)) + (width - 1)) "|"]).
      intros y Hy. apply in_range in Hy.
      erewrite bind_Ok by (apply draw_str_in; rewrite Es; simpl; lia).
      rewrite draw_str_in by (rewrite Es; simpl; lia).
      rewrite Hbar, Z.add_0_r. reflexivity. }
  erewrite trace_bind_Ok by (apply draw_str_in; rewrite Es; simpl; lia).
  rewrite Hcut, !Z.add_0_r. simpl vy; simpl vx.
  replace ((height - 2 >? 0) && (width - 2 >? 0))
    with ((3 <=? height) && (3 <=? width)) by lia.
  rewrite <- !app_assoc. simpl.
  destruct ((3 <=? height) && (3 <=? width)); reflexivity.
Qed.

Lemma border_frame_inside (area : Rect) :
  1 <= vy (size area) -> 1 <= vx (size area) ->
  Forall (write_inside area) (border_frame area).
Proof.
  intros Hh Hw. unfold border_frame.
  pose proof (len_horizon_border (vx (size area)) Hw) as Hl.
  apply Forall_app. split; [|apply Forall_app; split].
  - repeat constructor; unfold write_inside; lia.
  - apply Forall_forall. intros e He. apply in_flat_map in He.
    destruct He as (y & Hy & He). apply in_range in Hy.
    destruct He as [<-|[<-|[]]]; unfold write_inside;
      unfold PyStr.len; simpl String.length; lia.
  - repeat constructor; unfold write_inside; lia.
Qed.

(** X4. A [BorderBox] over at least one row and one column draws, in this
    order: the top line at its first row ([+], dashes, [+], exactly as wide
    as the box), on every row between the first and the last a bar at the
    first and one at the last column, the bottom line at its last row, and
    then, only when the box has at least three rows and three columns, the
    content, called once with the rectangle one cell in from each side. *)
Theorem X4_border_box_frame_then_content
        (ar : Z -> Z -> string -> bool) (area : Rect)
        (content : Rect -> M unit) :
  let h := vy (size area) in
  let w := vx (size area) in
  let interior :=
    mkRect (mkVector2D (vy (offset area) + 1) (vx (offset area) + 1))
           (mkVector2D (h - 2) (w - 2)) in
  1 <= h -> 1 <= w ->
  BorderBox_draw ar (mkBorderBox area content)
  = (border_frame area
       ++ (if (3 <=? h) && (3 <=? w) then trace (content interior) else []),
     Ok tt)
  /\ PyStr.len (horizon_border w) = w
  /\ Forall (write_inside area) (border_frame area).
Proof.
  intros h w interior Hh Hw.
  split; [exact (BorderBox_draw_frame ar (mkBorderBox area content) Hh Hw)|].
  split; [now apply len_horizon_border|].
  now apply border_frame_inside.
Qed.

Lemma X4_witness :
  1 <= 3 /\ 1 <= 4
  /\ BorderBox_draw never_raises
       (mkBorderBox (from_dimensions 0 0 3 4) (fun _ => tell Beep))
     = ([Addstr 0 0 "+--+"; Addstr 1 0 "|"; Addstr 1 3 "|";
         Addstr 2 0 "+--+"; Beep], Ok tt).
Proof.
  split; [lia|]. split; [lia|].
  exact (proj1 (X4_border_box_frame_then_content never_raises
                  (from_dimensions 0 0 3 4) (fun _ => tell Beep)
                  ltac:(simpl; lia) ltac:(simpl; lia))).
Defined.

(** X5. [BorderBox.draw] never fails, whatever the area, the backend and
    the content do: every failure inside it is swallowed.  A box with
    fewer than three rows or fewer than three columns never calls its
    content. *)
Theorem X5_border_box_never_fails
        (ar : Z -> Z -> string -> bool) (area : Rect)
        (content : Rect -> M unit) :
  outcome (BorderBox_draw ar (mkBorderBox area content)) = Ok tt
  /\ (vy (size area) < 3 \/ vx (size area) < 3 ->
      forall content',
        BorderBox_draw ar (mkBorderBox area content)
        = BorderBox_draw ar (mkBorderBox area content')).
Proof.
  split; [apply outcome_try_pass|].
  intros Hsmall content'. unfold BorderBox_draw. cbn [bb_area bb_content].
  destruct (size area) as [height width]; simpl in Hsmall.
  replace ((height - 2 >? 0) && (width - 2 >? 0)) with false by lia.
  reflexivity.
Qed.

Lemma X5_witness :
  (vy (size (from_dimensions 0 0 2 9)) < 3
   \/ vx (size (from_dimensions 0 0 2 9)) < 3)
  /\ BorderBox_draw never_raises
       (mkBorderBox (from_dimensions 0 0 2 9) (fun _ => tell Beep))
     = BorderBox_draw never_raises
         (mkBorderBox (from_dimensions 0 0 2 9) (fun _ => ret tt)).
Proof.
  split; [left; simpl; lia|].
  destruct (X5_border_box_never_fails never_raises
              (from_dimensions 0 0 2 9) (fun _ => tell Beep)) as [_ H].
  apply H. left. simpl. lia.
Defined.

(** ** The fillers, further *)

Lemma draw_str_y_out (ar : Z -> Z -> string -> bool)
      (area : Rect) (y x : Z) (s : string) h :
  ~ 0 <= y < vy (size area) ->
  _draw_str ar area y x s h = ([], Raise (RequireError "y is out of bounds")).
Proof.
  intros Hy. unfold _draw_str, _abs_coords.
  destruct area as [[oy ox] [rows cols]]; simpl in *.
  replace ((0 <=? y) && (y <? rows)) with false by lia. reflexivity.
Qed.

Lemma draw_str_x_out (ar : Z -> Z -> string -> bool)
      (area : Rect) (y x : Z) (s : string) h :
  0 <= y < vy (size area) -> ~ 0 <= x < vx (size area) ->
  _draw_str ar area y x s h = ([], Raise (RequireError "x is out of bounds")).
Proof.
  intros Hy Hx. unfold _draw_str, _abs_coords.
  destruct area as [[oy ox] [rows cols]]; simpl in *.
  replace ((0 <=? y) && (y <? rows)) with true by lia.
  replace ((0 <=? x) && (x <? cols)) with false by lia. reflexivity.
Qed.

Lemma for_each_all_raise {A} (ys : list A) (body : A -> M unit) (e : exn) :
  ys <> [] -> (forall y, In y ys -> body y = ([], Raise e)) ->
  for_each ys body = ([], Raise e).
Proof.
  destruct ys as [|y ys]; [congruence|]. intros _ Hb. simpl.
  now rewrite (bind_Raise _ _ _ _ (Hb y (or_introl eq_refl))).
Qed.

Lemma range_empty (lo hi : Z) : hi <= lo -> range lo hi = [].
Proof.
  intros Hle. unfold range. now replace (Z.to_nat (hi - lo)) with O by lia.
Qed.

Lemma get_take (n i : nat) (s : string) :
  (i < n)%nat -> String.get i (PyStr.take n s) = String.get i s.
Proof.
  revert i s. induction n as [|n IH]; intros i s Hi; [lia|].
  destruct s as [|c s]; [reflexivity|]. simpl.
  destruct i as [|i]; [reflexivity|]. apply IH. lia.
Qed.

Lemma get_repeat (s : string) (k i : nat) :
  (0 < String.length s)%nat -> (i < k * String.length s)%nat ->
  String.get i (PyStr.repeat s k)
  = String.get (i mod String.length s) s.
Proof.
  intros Hs. revert i. induction k as [|k IH]; intros i Hi; [simpl in Hi; lia|].
  simpl PyStr.repeat. destruct (Nat.lt_ge_cases i (String.length s)) as [Hlt|Hge].
  - rewrite <- append_correct1 by exact Hlt. now rewrite Nat.mod_small.
  - replace i with ((i - String.length s) + String.length s)%nat at 1 by lia.
    rewrite <- append_correct2. rewrite IH by (simpl in Hi; lia).
    f_equal.
    replace i with ((i - String.length s) + 1 * String.length s)%nat at 2
      by lia.
    now rewrite Nat.Div0.mod_add.
Qed.

Lemma repeated_line_periodic (token : string) (w i : Z) :
  1 <= PyStr.len token -> 0 <= i < w ->
  String.get (Z.to_nat i) (repeated_line token w)
  = String.get (Z.to_nat (i mod PyStr.len token)) token.
Proof.
  intros HL Hi.
  destruct (repeated_line_spec token w HL ltac:(lia)) as [-> _].
  destruct (repeats_cover (PyStr.len token) w HL ltac:(lia)) as (Hr & Hcov & _).
  set (r := if w mod PyStr.len token =? 0
            then w / PyStr.len token else w / PyStr.len token + 1) in *.
  unfold PyStr.slice_to. destruct (Z.leb_spec 0 w); [|lia].
  rewrite get_take by lia. unfold PyStr.mul.
  unfold PyStr.len in *. rewrite get_repeat by nia.
  rewrite Z2Nat.inj_mod by lia. now rewrite Nat2Z.id.
Qed.

(** X6. A filler returns normally exactly when its area has a column or
    has no row.  Over rows without columns it fails on the first row, at the
    column check, having written nothing; without rows it does nothing. *)
Theorem X6_filler_needs_a_column
        (ar : Z -> Z -> string -> bool) (self : Noising) :
  let h := vy (size (n_area self)) in
  let w := vx (size (n_area self)) in
  (outcome (Noising_draw ar self) = Ok tt <-> 1 <= w \/ h <= 0)
  /\ (1 <= h -> w <= 0 ->
      Noising_draw ar self
      = ([], Raise (RequireError "x is out of bounds")))
  /\ (h <= 0 -> Noising_draw ar self = ([], Ok tt)).
Proof.
  intros h w.
  assert (Hfail : 1 <= h -> w <= 0 ->
                  Noising_draw ar self
                  = ([], Raise (RequireError "x is out of bounds"))).
  { intros Hh Hw. rewrite Noising_draw_repeated. fold h.
    apply for_each_all_raise.
    - intros E. assert (Hin : In 0 (range 0 h)) by (apply in_range; lia).
      rewrite E in Hin. destruct Hin.
    - intros y Hy. apply in_range in Hy. apply draw_str_x_out; fold h w; lia. }
  assert (Hnone : h <= 0 -> Noising_draw ar self = ([], Ok tt)).
  { intros Hh. rewrite Noising_draw_repeated. fold h.
    now rewrite range_empty by lia. }
  split; [|split; assumption]. split.
  - intros Hok. destruct (Z_lt_le_dec 0 w); [lia|].
    destruct (Z_lt_le_dec 0 h); [|lia].
    rewrite Hfail in Hok by lia. discriminate Hok.
  - intros [Hw|Hh].
    + now rewrite (Noising_draw_rows ar self Hw).
    + now rewrite Hnone.
Qed.

Lemma X6_witness :
  1 <= 2 /\ 0 <= 0
  /\ Noising_draw never_raises
       (mkNoising NoisingExpanded (from_dimensions 0 0 2 0) "beep")
     = ([], Raise (RequireError "x is out of bounds")).
Proof.
  split; [lia|]. split; [lia|].
  destruct (X6_filler_needs_a_column never_raises
              (mkNoising NoisingExpanded (from_dimensions 0 0 2 0) "beep"))
    as (_ & H & _).
  exact (H ltac:(simpl; lia) ltac:(simpl; lia)).
Defined.

(** X7. What a filler writes is periodic in its token: on an area at least
    one column wide every row gets the same line, as long as the area is
    wide, whose character at column [i] is the character of the token at
    [i mod len(token)]. *)
Theorem X7_filler_line_is_periodic
        (ar : Z -> Z -> string -> bool) (self : Noising) :
  let area := n_area self in
  let w := vx (size area) in
  1 <= w ->
  exists line,
    Noising_draw ar self
    = (map (fun y => Addstr (vy (offset area) + y) (vx (offset area)) line)
           (range 0 (vy (size area))), Ok tt)
    /\ PyStr.len line = w
    /\ forall i, 0 <= i < w ->
                 String.get (Z.to_nat i) line
                 = String.get (Z.to_nat (i mod PyStr.len (_token self)))
                              (_token self).
Proof.
  intros area w Hw. exists (repeated_line (_token self) w).
  pose proof (token_len_pos self) as HL.
  split; [exact (Noising_draw_rows ar self Hw)|]. split.
  - now destruct (repeated_line_spec (_token self) w HL ltac:(lia)).
  - intros i Hi. now apply repeated_line_periodic.
Qed.

Lemma X7_witness :
  1 <= 7
  /\ exists line,
      Noising_draw never_raises
        (mkNoising NoisingExpanded (from_dimensions 0 0 1 7) "ab")
      = ([Addstr 0 0 line], Ok tt)
      /\ String.get 6 line = String.get 0 "    ab".
Proof.
  split; [lia|].
  destruct (X7_filler_line_is_periodic never_raises
              (mkNoising NoisingExpanded (from_dimensions 0 0 1 7) "ab")
              ltac:(simpl; lia)) as (line & Hd & _ & Hp).
  exists line. split; [exact Hd|].
  exact (Hp 6 ltac:(simpl; lia)).
Defined.

(** ** [ExitHint] and [RemainingTime] *)

(** X8. [ExitHint.draw] returns normally exactly when its area has a row
    and a column; it then writes one text, ["Press ESC to stop"] cut to the
    width, at the first column of the last row, inside the area.
    Otherwise it writes nothing and fails the bounds check. *)
Theorem X8_exit_hint_on_last_row
        (ar : Z -> Z -> string -> bool) (area : Rect) :
  let h := vy (size area) in
  let w := vx (size area) in
  let drawn := ExitHint_draw ar (mkExitHint area) in
  (outcome drawn = Ok tt <-> 1 <= h /\ 1 <= w)
  /\ (1 <= h -> 1 <= w ->
      drawn = ([Addstr (vy (offset area) + (h - 1)) (vx (offset area))
                       (PyStr.slice_to "Press ESC to stop" w)], Ok tt)
      /\ Forall (write_inside area) (trace drawn))
  /\ (~ (1 <= h /\ 1 <= w) ->
      exists msg, drawn = ([], Raise (RequireError msg))).
Proof.
  intros h w drawn.
  assert (Hin : 1 <= h -> 1 <= w ->
                drawn = ([Addstr (vy (offset area) + (h - 1)) (vx (offset area))
                                 (PyStr.slice_to "Press ESC to stop" w)],
                         Ok tt)).
  { intros Hh Hw. subst drawn. unfold ExitHint_draw. cbn [eh_area].
    rewrite draw_str_in by (fold h w; lia). now rewrite Z.add_0_r. }
  assert (Hout : ~ (1 <= h /\ 1 <= w) ->
                 exists msg, drawn = ([], Raise (RequireError msg))).
  { intros Hn. apply draw_str_out. cbn [eh_area]. fold h w. lia. }
  split; [|split; [|exact Hout]].
  - split.
    + intros Hok. destruct (Z_lt_le_dec h 1); [|destruct (Z_lt_le_dec w 1)];
        try lia; destruct Hout as (m & E); try lia;
        rewrite E in Hok; discriminate Hok.
    + intros [Hh Hw]. now rewrite Hin.
  - intros Hh Hw. split; [now apply Hin|]. rewrite Hin by assumption.
    repeat constructor; unfold write_inside; fold h w; try lia.
    rewrite len_slice_to_min by lia. lia.
Qed.

Lemma X8_witness :
  1 <= 4 /\ 1 <= 9
  /\ ExitHint_draw never_raises (mkExitHint (from_dimensions 2 3 4 9))
     = ([Addstr 5 3 "Press ESC"], Ok tt).
Proof.
  split; [lia|]. split; [lia|].
  destruct (X8_exit_hint_on_last_row never_raises (from_dimensions 2 3 4 9))
    as (_ & H & _).
  exact (proj1 (H ltac:(simpl; lia) ltac:(simpl; lia))).
Defined.

(** X9. [RemainingTime.draw] returns normally exactly when its area has at
    least two rows and a column; it then writes one text, the label and the
    formatted time cut to the width, at the first column of the
    second-to-last row, inside the area.  Over a single row it fails: the
    row it aims at is above the area. *)
Theorem X9_remaining_time_on_second_to_last_row
        (ar : Z -> Z -> string -> bool) (area : Rect) (rem : Z) :
  let h := vy (size area) in
  let w := vx (size area) in
  let drawn := RemainingTime_draw ar (mkRemainingTime area rem) in
  (outcome drawn = Ok tt <-> 2 <= h /\ 1 <= w)
  /\ (2 <= h -> 1 <= w ->
      drawn = ([Addstr (vy (offset area) + (h - 2)) (vx (offset area))
                       (PyStr.slice_to
                          ("Noising time remaining: " ++ format_time rem) w)],
               Ok tt)
      /\ Forall (write_inside area) (trace drawn))
  /\ (h = 1 ->
      drawn = ([], Raise (RequireError "y is out of bounds"))).
Proof.
  intros h w drawn.
  assert (Hin : 2 <= h -> 1 <= w ->
                drawn
                = ([Addstr (vy (offset area) + (h - 2)) (vx (offset area))
                           (PyStr.slice_to
                              ("Noising time remaining: " ++ format_time rem)
                              w)], Ok tt)).
  { intros Hh Hw. subst drawn. unfold RemainingTime_draw. cbn [rt_area].
    rewrite draw_str_in by (fold h w; lia). now rewrite Z.add_0_r. }
  assert (Hout : ~ (2 <= h /\ 1 <= w) ->
                 exists msg, drawn = ([], Raise (RequireError msg))).
  { intros Hn. apply draw_str_out. cbn [rt_area]. fold h w. lia. }
  split; [|split].
  - split.
    + intros Hok. destruct (Z_lt_le_dec h 2); [|destruct (Z_lt_le_dec w 1)];
        try lia; destruct Hout as (m & E); try lia;
        rewrite E in Hok; discriminate Hok.
    + intros [Hh Hw]. now rewrite Hin.
  - intros Hh Hw. split; [now apply Hin|]. rewrite Hin by assumption.
    repeat constructor; unfold write_inside; fold h w; try lia.
    rewrite len_slice_to_min by lia. lia.
  - intros H1. subst drawn. unfold RemainingTime_draw. cbn [rt_area].
    apply draw_str_y_out. fold h. lia.
Qed.

Lemma X9_witness :
  2 <= 2 /\ 1 <= 30
  /\ RemainingTime_draw never_raises
       (mkRemainingTime (from_dimensions 0 0 2 30) 45)
     = ([Addstr 0 0 "Noising time remaining: 45s"], Ok tt).
Proof.
  split; [lia|]. split; [lia|].
  destruct (X9_remaining_time_on_second_to_last_row never_raises
              (from_dimensions 0 0 2 30) 45) as (_ & H & _).
  exact (proj1 (H ltac:(simpl; lia) ltac:(simpl; lia))).
Defined.

(** ** [Monitor]: what is drawn where *)

Lemma write_inside_within (a b : Rect) (e : event) :
  within a b -> write_inside a e -> write_inside b e.
Proof. unfold within, write_inside. destruct e; auto. lia. Qed.

Lemma filler_rows_inside (cls : noising_class) (noise : string) (a : Rect) :
  1 <= vx (size a) -> Forall (write_inside a) (filler_rows cls noise a).
Proof.
  intros Hw. apply Forall_forall. intros e He.
  unfold filler_rows in He. apply in_map_iff in He.
  destruct He as (y & <- & Hy). apply in_range in Hy.
  unfold write_inside.
  destruct (repeated_line_spec (_token (mkNoising cls a noise)) (vx (size a))
              (token_len_pos _) ltac:(lia)) as [_ ->]. lia.
Qed.

Lemma filler_draw_rows (ar : Z -> Z -> string -> bool)
      (cls : noising_class) (noise : string) (a : Rect) :
  1 <= vx (size a) ->
  Noising_draw ar (mkNoising cls a noise) = (filler_rows cls noise a, Ok tt).
Proof. intros Hw. now rewrite Noising_draw_rows. Qed.

(** The main content, entry by entry, on an area with a column. *)
Lemma Monitor_main_content_explicit
      (ar : Z -> Z -> string -> bool) (self : Monitor) :
  let area := m_area self in
  let h := vy (size area) in
  let w := vx (size area) in
  let k := chosen_filler h w (m_noise self) in
  let band := mkRect (offset area) (mkVector2D (h - 2) w) in
  let inner :=
    mkRect (mkVector2D (vy (offset area) + (vy (offset area) + 1))
                       (vx (offset area) + (vx (offset area) + 1)))
           (mkVector2D (h - 4) (w - 2)) in
  1 <= w ->
  Monitor_main_content ar self
  = (if h <? 3 then []
     else if h <? 5 then Sub (CNoising k) band :: filler_rows k (m_noise self) band
     else Sub CBorderBox band
            :: border_frame band
            ++ (if 3 <=? w
                then Sub (CNoising k) inner
                       :: filler_rows k (m_noise self) inner
                else []),
     Ok tt).
Proof.
  destruct self as [[[oy ox] [height width]] noise rem].
  cbv zeta. cbn [m_area m_noise size offset vy vx]. intros Hw.
  assert (Hband :
            _inner_area (mkRect (mkVector2D oy ox) (mkVector2D height width))
              (mkRect (mkVector2D 0 0) (mkVector2D (height - 2) width))
            = mkRect (mkVector2D oy ox) (mkVector2D (height - 2) width)).
  { unfold _inner_area; simpl. f_equal; f_equal; lia. }
  assert (Hinner :
            _inner_area (mkRect (mkVector2D oy ox) (mkVector2D height width))
              (mkRect (mkVector2D (oy + 1) (ox + 1))
                      (mkVector2D (height - 2 - 2) (width - 2)))
            = mkRect (mkVector2D (oy + (oy + 1)) (ox + (ox + 1)))
                     (mkVector2D (height - 4) (width - 2))).
  { unfold _inner_area; simpl. f_equal; f_equal; lia. }
  unfold Monitor_main_content, chosen_filler.
  cbn [m_area m_noise size offset vy vx token_exceeds_width].
  set (k := if width >=? _ then NoisingExpanded else NoisingCompressed).
  destruct (Z.geb_spec height 3) as [H3|H3];
    [|destruct (Z.ltb_spec height 3); [reflexivity|lia]].
  destruct (Z.ltb_spec height 3); [lia|].
  destruct (Z.geb_spec height 5) as [H5|H5].
  - destruct (Z.ltb_spec height 5); [lia|].
    erewrite draw_sub_in_built by reflexivity.
    rewrite Hband. cbn [class_of _area BorderBox_element bb_area draw].
    rewrite BorderBox_draw_frame by (cbn [bb_area size vy vx]; lia).
    cbn [bb_area bb_content size offset vy vx].
    unfold trace at 1, outcome at 1. cbn [fst snd].
    f_equal. f_equal. f_equal.
    replace ((3 <=? height - 2) && (3 <=? width))
      with (3 <=? width) by lia.
    destruct (Z.leb_spec 3 width); [|reflexivity].
    erewrite draw_sub_in_built by reflexivity.
    rewrite Hinner. cbn [class_of _area Noising_element n_area n_class draw].
    rewrite filler_draw_rows by (cbn [size vx]; lia).
    reflexivity.
  - destruct (Z.ltb_spec height 5); [|lia].
    erewrite draw_sub_in_built by reflexivity.
    rewrite Hband. cbn [class_of _area Noising_element n_area n_class draw].
    rewrite filler_draw_rows by (cbn [size vx]; lia).
    reflexivity.
Qed.

(** With a column, and remaining seconds absent or positive, the three
    blocks of [Monitor.draw] all return and their logs follow one
    another. *)
Lemma Monitor_draw_parts (ar : Z -> Z -> string -> bool) (self : Monitor) :
  1 <= vx (size (m_area self)) ->
  (forall r, m_rem_sec self = Some r -> 0 < r) ->
  Monitor_draw ar self
  = (trace (Monitor_main_content ar self)
       ++ trace (Monitor_remaining_time ar self)
       ++ trace (Monitor_exit_hint ar self), Ok tt).
Proof.
  intros Hw Hrem. unfold Monitor_draw.
  rewrite (surjective_M (Monitor_main_content ar self)) at 1.
  rewrite (Monitor_main_content_Ok ar self Hw).
  rewrite (Monitor_remaining_time_eq ar self Hw Hrem).
  rewrite (Monitor_exit_hint_eq ar self Hw). reflexivity.
Qed.

(** X10. Under a border the filler is not drawn on the interior of the box
    unless the [Monitor] sits at the origin: the box hands its content the
    interior in absolute coordinates, and the content callback of
    [Monitor.draw] passes it on as if it were relative, so the offset of the
    [Monitor] is added a second time.  For every [Monitor] of at least five
    rows and three columns the filler is built, and writes its rows, at
    [2 * offset + (1, 1)]. *)
Theorem X10_bordered_filler_offset_counted_twice
        (ar : Z -> Z -> string -> bool) (self : Monitor) :
  let area := m_area self in
  let oy := vy (offset area) in
  let ox := vx (offset area) in
  let h := vy (size area) in
  let w := vx (size area) in
  let k := chosen_filler h w (m_noise self) in
  let box := mkRect (offset area) (mkVector2D (h - 2) w) in
  let interior :=
    mkRect (mkVector2D (oy + 1) (ox + 1)) (mkVector2D (h - 4) (w - 2)) in
  let filler :=
    mkRect (mkVector2D (oy + (oy + 1)) (ox + (ox + 1)))
           (mkVector2D (h - 4) (w - 2)) in
  let tr := trace (Monitor_draw ar self) in
  5 <= h -> 3 <= w ->
  In (Sub CBorderBox box) tr
  /\ In (Sub (CNoising k) filler) tr
  /\ (forall y, 0 <= y < h - 4 ->
      In (Addstr (oy + (oy + 1) + y) (ox + (ox + 1))
                 (repeated_line (_token (mkNoising k filler (m_noise self)))
                                (w - 2))) tr)
  /\ (filler = interior <-> oy = 0 /\ ox = 0).
Proof.
  intros area oy ox h w k box interior filler tr H5 Hw.
  assert (Hw1 : 1 <= vx (size (m_area self))) by (unfold w, area in Hw; lia).
  pose proof (Monitor_main_content_explicit ar self Hw1) as E.
  cbv zeta in E. fold area h w k oy ox in E. fold box filler in E.
  destruct (Z.ltb_spec h 3); [lia|]. destruct (Z.ltb_spec h 5); [lia|].
  destruct (Z.leb_spec 3 w); [|lia].
  assert (Hsub : forall e,
             In e (Sub CBorderBox box
                     :: border_frame box
                     ++ Sub (CNoising k) filler
                     :: filler_rows k (m_noise self) filler) ->
             In e tr).
  { intros e He. subst tr. unfold Monitor_draw. apply in_trace_bind.
    rewrite E. exact He. }
  split; [apply Hsub; now left|].
  split; [apply Hsub; right; apply in_or_app; right; now left|].
  split.
  - intros y Hy. apply Hsub. right. apply in_or_app. right. right.
    unfold filler_rows. apply in_map_iff. exists y.
    split; [reflexivity|]. apply in_range. simpl. lia.
  - unfold filler, interior. split.
    + intros [= Ey Ex]. lia.
    + intros [Ey Ex]. f_equal. f_equal; lia.
Qed.

Lemma X10_witness :
  5 <= 6 /\ 3 <= 12
  /\ In (Sub (CNoising NoisingExpanded) (from_dimensions 5 7 2 10))
        (trace (Monitor_draw never_raises
                  (mkMonitor (from_dimensions 2 3 6 12) "beep" (Some 90))))
  /\ In (Addstr 5 7 "    beep  ")
        (trace (Monitor_draw never_raises
                  (mkMonitor (from_dimensions 2 3 6 12) "beep" (Some 90)))).
Proof.
  split; [lia|]. split; [lia|].
  destruct (X10_bordered_filler_offset_counted_twice never_raises
              (mkMonitor (from_dimensions 2 3 6 12) "beep" (Some 90))
              ltac:(simpl; lia) ltac:(simpl; lia)) as (_ & Hs & Hr & _).
  split; [exact Hs|]. exact (Hr 0 ltac:(simpl; lia)).
Defined.

Lemma Monitor_writes_inside
      (ar : Z -> Z -> string -> bool) (self : Monitor) :
  let area := m_area self in
  let h := vy (size area) in
  let w := vx (size area) in
  let band := mkRect (offset area) (mkVector2D (h - 2) w) in
  1 <= w ->
  (forall r, m_rem_sec self = Some r -> 0 < r) ->
  offset area = mkVector2D 0 0 \/ h < 5 ->
  outcome (Monitor_draw ar self) = Ok tt
  /\ Forall (write_inside band) (trace (Monitor_main_content ar self))
  /\ Forall (write_inside area) (trace (Monitor_draw ar self)).
Proof.
  intros area h w band Hw Hrem Horigin.
  pose proof (Monitor_draw_parts ar self Hw Hrem) as Hparts.
  pose proof (Monitor_main_content_explicit ar self Hw) as Hmain.
  cbv zeta in Hmain. fold area h w in Hmain. fold band in Hmain.
  assert (Hband : Forall (write_inside band)
                         (trace (Monitor_main_content ar self))).
  { rewrite Hmain. unfold trace; cbn [fst].
    destruct (Z.ltb_spec h 3); [constructor|].
    destruct (Z.ltb_spec h 5).
    - constructor; [exact I|]. apply filler_rows_inside. simpl. exact Hw.
    - destruct Horigin as [Ho|]; [|lia].
      constructor; [exact I|]. apply Forall_app. split.
      + apply border_frame_inside; simpl; lia.
      + destruct (Z.leb_spec 3 w); [|constructor].
        constructor; [exact I|].
        eapply Forall_impl;
          [|apply filler_rows_inside; simpl; lia].
        intros e. apply write_inside_within.
        unfold within, band. rewrite Ho. cbn [offset size vy vx]. lia. }
  split; [now rewrite Hparts|]. split; [exact Hband|].
  rewrite Hparts. unfold trace at 1; cbn [fst].
  apply Forall_app. split; [|apply Forall_app; split].
  - eapply Forall_impl; [|exact Hband].
    intros e. apply write_inside_within. unfold within, band.
    cbn [offset size vy vx]. fold area h w. lia.
  - rewrite (Monitor_remaining_time_eq ar self Hw Hrem). fold area h w.
    unfold trace; cbn [fst].
    destruct (m_rem_sec self) as [r|]; [|constructor].
    destruct (Z.geb_spec h 2); [|constructor].
    constructor; [exact I|]. constructor; [|constructor].
    unfold write_inside. fold area h w.
    rewrite len_slice_to_min by lia. lia.
  - rewrite (Monitor_exit_hint_eq ar self Hw). fold area h w.
    unfold trace; cbn [fst].
    destruct (Z.geb_spec h 1); [|constructor].
    constructor; [exact I|]. constructor; [|constructor].
    unfold write_inside. fold area h w.
    rewrite len_slice_to_min by lia. lia.
Qed.

(** X11. A [Monitor] with a column, and remaining seconds absent or
    positive, that sits at the origin or draws no border, never writes
    outside its area: the main content stays on the band, rows
    [0, height - 2), and the two lines below it on their rows. *)
Theorem X11_monitor_writes_stay_inside
        (ar : Z -> Z -> string -> bool) (self : Monitor) :
  let area := m_area self in
  let h := vy (size area) in
  let w := vx (size area) in
  let band := mkRect (offset area) (mkVector2D (h - 2) w) in
  1 <= w ->
  (forall r, m_rem_sec self = Some r -> 0 < r) ->
  offset area = mkVector2D 0 0 \/ h < 5 ->
  outcome (Monitor_draw ar self) = Ok tt
  /\ Forall (write_inside band) (trace (Monitor_main_content ar self))
  /\ Forall (write_inside area) (trace (Monitor_draw ar self)).
Proof. exact (Monitor_writes_inside ar self). Qed.

Lemma X11_witness :
  1 <= 12
  /\ (forall r, Some 90 = Some r -> 0 < r)
  /\ (offset (from_dimensions 0 0 6 12) = mkVector2D 0 0 \/ 6 < 5)
  /\ Forall (write_inside (from_dimensions 0 0 6 12))
            (trace (Monitor_draw never_raises
                      (mkMonitor (from_dimensions 0 0 6 12) "beep" (Some 90)))).
Proof.
  split; [lia|]. split; [intros r [= <-]; lia|]. split; [now left|].
  destruct (X11_monitor_writes_stay_inside never_raises
              (mkMonitor (from_dimensions 0 0 6 12) "beep" (Some 90))
              ltac:(simpl; lia) ltac:(intros r [= <-]; lia)
              ltac:(now left)) as (_ & _ & H).
  exact H.
Defined.

(** ** The frame function, path by path *)

Lemma bind_ret {A B} (a : A) (f : A -> M B) : bind (ret a) f = f a.
Proof. unfold bind, ret. now destruct (f a). Qed.

Lemma try_print_cases (m : M unit) :
  try_print m = (trace m, Ok tt)
  \/ exists e, try_print m = (trace m ++ [PrintRenderingError e], Ok tt).
Proof.
  destruct m as [t [[]|e]]; simpl; [now left|]. right. now exists e.
Qed.

(** *** Rendering inside a frame *)

Lemma rendered_entries (ar : Z -> Z -> string -> bool) (m : Monitor) :
  Forall rendering_entry (trace (try_print (Monitor_draw ar m))).
Proof.
  assert (H : Forall rendering_entry (trace (Monitor_draw ar m))).
  { apply (inv_Monitor_draw ar rendering_entry (fun _ => True));
      try exact I; try (intros; exact I).
    intros. apply draw_str_keeps. intros; exact I. }
  destruct (try_print_cases (Monitor_draw ar m)) as [->|(e & ->)];
    unfold trace at 1; cbn [fst]; [exact H|].
  apply Forall_app. split; [exact H|]. now repeat constructor.
Qed.

Lemma rendered_inside (ar : Z -> Z -> string -> bool) (m : Monitor) :
  offset (m_area m) = mkVector2D 0 0 ->
  (forall r, m_rem_sec m = Some r -> 0 < r) ->
  Forall (write_inside (m_area m)) (trace (try_print (Monitor_draw ar m))).
Proof.
  intros Ho Hrem.
  assert (H : Forall (write_inside (m_area m)) (trace (Monitor_draw ar m))).
  { destruct (Z_lt_le_dec (vx (size (m_area m))) 1) as [Hw|Hw].
    - eapply Forall_impl;
        [|apply (inv_Monitor_draw ar
                   (fun e => match e with
                             | Addstr _ _ _ => False
                             | _ => True
                             end) no_room);
          try (intros; exact I)].
      + intros [] He; try exact I. contradiction.
      + apply no_room_inner.
      + intros. now apply draw_str_no_room_keeps.
      + right. lia.
    - now destruct (Monitor_writes_inside ar m ltac:(lia) Hrem (or_introl Ho))
        as (_ & _ & H). }
  destruct (try_print_cases (Monitor_draw ar m)) as [->|(e & ->)];
    unfold trace at 1; cbn [fst]; [exact H|].
  apply Forall_app. split; [exact H|]. now repeat constructor.
Qed.

Section Clock.

Context {F : PyFloat}.


End Clock.

Section Frame.

Context {F : PyFloat}.

Variable ar : Z -> Z -> string -> bool.
Variable KEY_MOUSE : Z.

(** The ways through a frame. *)
Lemma frame_paths (self : App) (tk : tick) :
  _frame ar KEY_MOUSE self tk
  = if getch tk =? 27 then ([], Ok (false, self))
    else if consumes_mouse KEY_MOUSE (getch tk) then ([GetMouse], Ok (true, self))
    else
      match expired self tk with
      | Raise e => ([], Raise e)
      | Ok true => ([], Ok (false, self))
      | Ok false =>
        (Erase :: trace (try_print (Monitor_draw ar (frame_monitor self tk)))
               ++ Refresh :: (if cue_due self tk then [Beep] else []),
         Ok (true, if cue_due self tk
                   then with_last_beep self (monotonic_beep tk) else self))
      end.
Proof.
  unfold _frame, consumes_mouse, expired, cue_due, frame_monitor.
  destruct (Z.eqb_spec (getch tk) (-1)) as [Hn|Hn]; cbn [negb andb];
    [rewrite Hn; cbn [Z.eqb]
    |destruct (getch tk =? 27); [reflexivity|]; cbn [negb];
     destruct (getch tk =? KEY_MOUSE); [reflexivity|]];
    (destruct (remaining_seconds self (monotonic_remaining tk))
       as [remaining|e]; [|reflexivity];
     unfold lift; rewrite (bind_Ok _ _ [] remaining) by reflexivity;
     cbn [app];
     rewrite <- surjective_M;
     destruct (match remaining with Some r => r <=? 0 | None => false end)
              eqn:Hx;
     [destruct remaining as [r|]; [rewrite Hx; reflexivity|discriminate Hx]|];
     replace (match remaining with Some r => Ok (r <=? 0) | None => Ok false end)
       with (@Ok bool false)
       by (destruct remaining as [r|]; [now rewrite Hx|reflexivity]);
     unfold Monitor_init; rewrite bind_ret; cbn [draw Monitor_element];
     match goal with
     | |- context [try_print ?m] =>
       destruct (try_print_cases m) as [E|(e & E)]; rewrite E
     end;
     unfold tell, bind, ret, trace, try_pass, with_last_beep; cbn [fst snd];
     destruct (_beep_enabled self); cbn [andb];
     try destruct (float_ge _ _); cbn [app];
     rewrite <- ?app_assoc; reflexivity).
Qed.

Lemma not_expired_positive (self : App) (tk : tick) :
  expired self tk = Ok false ->
  forall r, m_rem_sec (frame_monitor self tk) = Some r -> 0 < r.
Proof.
  unfold expired, frame_monitor. cbn [m_rem_sec].
  destruct (remaining_seconds self (monotonic_remaining tk)) as [[r'|]|e];
    intros H r E; try discriminate.
  injection H as H. injection E as <-. lia.
Qed.

(** X13. Past the input, what a frame does is decided by the remaining
    seconds.  If computing them fails, the failure leaves the frame, nothing
    touched.  If they are present and not positive the frame returns
    [False], nothing touched and the object unchanged.  And whenever a frame
    returns, it returns [False] exactly when ESC was read, or no mouse event
    was consumed and the remaining seconds were present and not positive; of
    the object only [_last_beep] can have changed. *)
Theorem X13_frame_stops_on_esc_or_expiry (self : App) (tk : tick) :
  let remaining := remaining_seconds self (monotonic_remaining tk) in
  (forall e, getch tk <> 27 -> consumes_mouse KEY_MOUSE (getch tk) = false ->
             remaining = Raise e ->
             _frame ar KEY_MOUSE self tk = ([], Raise e))
  /\ (forall r, getch tk <> 27 -> consumes_mouse KEY_MOUSE (getch tk) = false ->
                remaining = Ok (Some r) -> r <= 0 ->
                _frame ar KEY_MOUSE self tk = ([], Ok (false, self)))
  /\ (forall go self',
         outcome (_frame ar KEY_MOUSE self tk) = Ok (go, self') ->
         (go = false
          <-> getch tk = 27
              \/ (consumes_mouse KEY_MOUSE (getch tk) = false
                  /\ exists r, remaining = Ok (Some r) /\ r <= 0))
         /\ (go = false ->
             trace (_frame ar KEY_MOUSE self tk) = [] /\ self' = self)
         /\ _noise_text self' = _noise_text self
         /\ _max_time self' = _max_time self
         /\ _start_time self' = _start_time self
         /\ _beep_enabled self' = _beep_enabled self).
Proof.
  intros remaining. rewrite frame_paths. unfold expired. fold remaining.
  split; [|split].
  - intros e He Hm Hr.
    destruct (Z.eqb_spec (getch tk) 27); [contradiction|].
    now rewrite Hm, Hr.
  - intros r He Hm Hr Hle.
    destruct (Z.eqb_spec (getch tk) 27); [contradiction|].
    rewrite Hm, Hr. now replace (r <=? 0) with true by lia.
  - intros go self'.
    destruct (Z.eqb_spec (getch tk) 27) as [He|He].
    { intros [= <- <-]. repeat split; auto. }
    destruct (consumes_mouse KEY_MOUSE (getch tk)) eqn:Hm.
    { intros [= <- <-]. repeat split; auto; try discriminate.
      intros [|[? _]]; [contradiction|discriminate]. }
    destruct remaining as [[r|]|e] eqn:Hr.
    + destruct (Z.leb_spec r 0) as [Hle|Hgt].
      * intros [= <- <-]. repeat split; auto.
        intros _. right. split; [reflexivity|]. now exists r.
      * intros [= <- <-]. split; [|split; [discriminate|]].
        -- split; [discriminate|].
           intros [|(_ & r' & [= <-] & Hle)]; [contradiction|lia].
        -- destruct (cue_due self tk); repeat split; reflexivity.
    + intros [= <- <-]. split; [|split; [discriminate|]].
      * split; [discriminate|].
        intros [|(_ & r' & H & _)]; [contradiction|discriminate H].
      * destruct (cue_due self tk); repeat split; reflexivity.
    + discriminate.
Qed.

(** X14. A mouse event is consumed and ends the frame: the frame reads the
    mouse, draws nothing, leaves the object as it is and returns [True],
    without looking at the clock, so even when the time is up. *)
Theorem X14_mouse_event_skips_the_frame (self : App) (tk : tick) :
  getch tk = KEY_MOUSE -> getch tk <> -1 -> getch tk <> 27 ->
  _frame ar KEY_MOUSE self tk = ([GetMouse], Ok (true, self)).
Proof.
  intros Hk Hn He. rewrite frame_paths. unfold consumes_mouse.
  destruct (Z.eqb_spec (getch tk) 27); [contradiction|].
  destruct (Z.eqb_spec (getch tk) (-1)); [contradiction|].
  destruct (Z.eqb_spec (getch tk) KEY_MOUSE); [reflexivity|contradiction].
Qed.

(** X15. A frame sounds the cue exactly when it draws (no ESC, no mouse
    event, remaining seconds computed and the time not up), the fallback is
    on and the float test [now - _last_beep >= 1.0] holds; it then returns
    [True] with [_last_beep] set to that clock reading.  A frame that
    returns without sounding the cue leaves the object as it was. *)
Theorem X15_cue_when_the_interval_has_passed (self : App) (tk : tick) :
  let tr := trace (_frame ar KEY_MOUSE self tk) in
  (In Beep tr
   <-> getch tk <> 27
       /\ consumes_mouse KEY_MOUSE (getch tk) = false
       /\ expired self tk = Ok false
       /\ _beep_enabled self = true
       /\ float_ge (float_sub (monotonic_beep tk) (_last_beep self))
                   BEEP_INTERVAL = true)
  /\ (In Beep tr ->
      outcome (_frame ar KEY_MOUSE self tk)
      = Ok (true, with_last_beep self (monotonic_beep tk)))
  /\ (forall go self',
         outcome (_frame ar KEY_MOUSE self tk) = Ok (go, self') ->
         ~ In Beep tr -> self' = self).
Proof.
  intros tr. subst tr. rewrite frame_paths.
  assert (Hdue : cue_due self tk = true
                 <-> _beep_enabled self = true
                     /\ float_ge (float_sub (monotonic_beep tk)
                                            (_last_beep self))
                                 BEEP_INTERVAL = true).
  { unfold cue_due. now rewrite andb_true_iff. }
  destruct (Z.eqb_spec (getch tk) 27) as [He|He].
  { unfold trace, outcome; cbn [fst snd In].
    split; [split; [intros [] | intros (H & _); contradiction]|].
    split; [intros [] | now intros go self' [= <- <-]]. }
  destruct (consumes_mouse KEY_MOUSE (getch tk)) eqn:Hm.
  { unfold trace, outcome; cbn [fst snd In].
    split; [split; [intros [H|[]]; discriminate H
                   | intros (_ & H & _); discriminate H]|].
    split; [intros [H|[]]; discriminate H | now intros go self' [= <- <-]]. }
  destruct (expired self tk) as [[|]|e] eqn:Hx.
  { unfold trace, outcome; cbn [fst snd In].
    split; [split; [intros [] | intros (_ & _ & H & _); discriminate H]|].
    split; [intros [] | now intros go self' [= <- <-]]. }
  2:{ unfold trace, outcome; cbn [fst snd In].
      split; [split; [intros [] | intros (_ & _ & H & _); discriminate H]|].
      split; [intros [] | discriminate]. }
  pose proof (rendered_entries ar (frame_monitor self tk)) as Hr.
  rewrite Forall_forall in Hr.
  assert (Hmid : ~ In Beep (trace (try_print
                                     (Monitor_draw ar (frame_monitor self tk))))).
  { intros Hin. exact (Hr _ Hin). }
  repeat match goal with
         | |- context [trace (?a, ?b)] => change (trace (a, b)) with a
         | |- context [outcome (?a, ?b)] => change (outcome (a, b)) with b
         end.
  destruct (cue_due self tk) eqn:Hc.
  - assert (Hin : In Beep (Erase :: trace (try_print
                                              (Monitor_draw ar
                                                 (frame_monitor self tk)))
                                 ++ [Refresh; Beep])).
    { right. apply in_or_app. right. right. now left. }
    destruct (proj1 Hdue eq_refl) as [Hb Hq].
    split; [split; [intros _; now repeat split | intros _; exact Hin]|].
    split; [reflexivity | intros go self' _ Hn; contradiction].
  - assert (Hnot : ~ In Beep (Erase :: trace (try_print
                                                (Monitor_draw ar
                                                   (frame_monitor self tk)))
                                    ++ [Refresh])).
    { intros [H|H]; [discriminate H|]. apply in_app_or in H.
      destruct H as [H|[H|[]]]; [now apply Hmid|discriminate H]. }
    split; [split; [intros Hin; contradiction|]|].
    + intros (_ & _ & _ & Hb & Hq).
      discriminate (proj2 Hdue (conj Hb Hq)).
    + split; [intros Hin; contradiction | now intros go self' [= <- <-]].
Qed.

(** X16. Whatever the size of the window, a frame writes only on cells of
    the window.  A frame that draws first erases, then renders (writes,
    delegations, at most the report of a rendering failure), then
    refreshes, and only then may sound the cue. *)
Theorem X16_frame_draws_inside_the_window (self : App) (tk : tick) :
  let tr := trace (_frame ar KEY_MOUSE self tk) in
  Forall (write_inside (max_area_of (getmaxyx tk))) tr
  /\ (getch tk <> 27 ->
      consumes_mouse KEY_MOUSE (getch tk) = false ->
      expired self tk = Ok false ->
      exists mid tail,
        tr = Erase :: mid ++ Refresh :: tail
        /\ Forall rendering_entry mid
        /\ (tail = [] \/ tail = [Beep])).
Proof.
  intros tr. subst tr. rewrite frame_paths.
  destruct (Z.eqb_spec (getch tk) 27) as [He|He].
  { split; [constructor|]. intros H. contradiction. }
  destruct (consumes_mouse KEY_MOUSE (getch tk)) eqn:Hm.
  { split; [now repeat constructor|]. discriminate. }
  destruct (expired self tk) as [[|]|e] eqn:Hx.
  { split; [constructor|]. discriminate. }
  2:{ split; [constructor|]. discriminate. }
  unfold trace at 1 2; cbn [fst]. split.
  - constructor; [exact I|]. apply Forall_app. split.
    + replace (max_area_of (getmaxyx tk))
        with (m_area (frame_monitor self tk)) by reflexivity.
      apply (rendered_inside ar (frame_monitor self tk)).
      * unfold frame_monitor, max_area_of. cbn [m_area].
        now destruct (getmaxyx tk).
      * apply (not_expired_positive self tk Hx).
    + destruct (cue_due self tk); now repeat constructor.
  - intros _ _ _. eexists _, _. split; [reflexivity|].
    split; [apply rendered_entries|].
    destruct (cue_due self tk); [now right | now left].
Qed.

End Frame.


Lemma X13_witness :
  getch (mkTick (F := exact_clock) (-1) (24, 80) (119 # 2)%Q (119 # 2)%Q) <> 27
  /\ consumes_mouse 409 (-1) = false
  /\ remaining_seconds (mkApp (F := exact_clock) "beep" 60 0%Q true 0%Q)
                       (119 # 2)%Q = Ok (Some 0)
  /\ 0 <= 0
  /\ _frame never_raises 409 (mkApp (F := exact_clock) "beep" 60 0%Q true 0%Q)
            (mkTick (F := exact_clock) (-1) (24, 80) (119 # 2)%Q (119 # 2)%Q)
     = ([], Ok (false, mkApp (F := exact_clock) "beep" 60 0%Q true 0%Q)).
Proof.
  split; [discriminate|]. split; [reflexivity|]. split; [reflexivity|].
  split; [lia|].
  destruct (X13_frame_stops_on_esc_or_expiry never_raises 409
              (mkApp (F := exact_clock) "beep" 60 0%Q true 0%Q)
              (mkTick (F := exact_clock) (-1) (24, 80) (119 # 2)%Q (119 # 2)%Q))
    as (_ & H & _).
  exact (H 0 ltac:(discriminate) eq_refl eq_refl ltac:(lia)).
Defined.

Lemma X14_witness :
  getch (mkTick (F := exact_clock) 409 (24, 80) 100%Q 100%Q) = 409
  /\ getch (mkTick (F := exact_clock) 409 (24, 80) 100%Q 100%Q) <> -1
  /\ getch (mkTick (F := exact_clock) 409 (24, 80) 100%Q 100%Q) <> 27
  /\ _frame never_raises 409 (mkApp (F := exact_clock) "beep" 60 0%Q true 0%Q)
            (mkTick (F := exact_clock) 409 (24, 80) 100%Q 100%Q)
     = ([GetMouse], Ok (true, mkApp (F := exact_clock) "beep" 60 0%Q true 0%Q)).
Proof.
  split; [reflexivity|]. split; [discriminate|]. split; [discriminate|].
  apply X14_mouse_event_skips_the_frame;
    [reflexivity | discriminate | discriminate].
Defined.

Lemma X15_witness :
  In Beep (trace (_frame never_raises 409
                         (mkApp (F := exact_clock) "beep" 60 0%Q true 0%Q)
                         (mkTick (F := exact_clock) (-1) (2, 20)
                                 (3 # 2)%Q (3 # 2)%Q)))
  /\ outcome (_frame never_raises 409
                     (mkApp (F := exact_clock) "beep" 60 0%Q true 0%Q)
                     (mkTick (F := exact_clock) (-1) (2, 20)
                             (3 # 2)%Q (3 # 2)%Q))
     = Ok (true, mkApp (F := exact_clock) "beep" 60 0%Q true (3 # 2)%Q).
Proof.
  destruct (X15_cue_when_the_interval_has_passed never_raises 409
              (mkApp (F := exact_clock) "beep" 60 0%Q true 0%Q)
              (mkTick (F := exact_clock) (-1) (2, 20) (3 # 2)%Q (3 # 2)%Q))
    as (Hb & Hs & _).
  assert (Hin : In Beep (trace (_frame never_raises 409
                         (mkApp (F := exact_clock) "beep" 60 0%Q true 0%Q)
                         (mkTick (F := exact_clock) (-1) (2, 20)
                                 (3 # 2)%Q (3 # 2)%Q)))).
  { apply Hb. repeat split; try discriminate; reflexivity. }
  split; [exact Hin | exact (Hs Hin)].
Defined.

Lemma X16_witness :
  getch (mkTick (F := exact_clock) (-1) (1, 20) 1%Q 1%Q) <> 27
  /\ consumes_mouse 409 (-1) = false
  /\ expired (mkApp (F := exact_clock) "beep" 0 0%Q false 0%Q)
             (mkTick (F := exact_clock) (-1) (1, 20) 1%Q 1%Q) = Ok false
  /\ Forall (write_inside (from_dimensions 0 0 1 20))
            (trace (_frame never_raises 409
                           (mkApp (F := exact_clock) "beep" 0 0%Q false 0%Q)
                           (mkTick (F := exact_clock) (-1) (1, 20) 1%Q 1%Q)))
  /\ exists mid tail,
      trace (_frame never_raises 409
                    (mkApp (F := exact_clock) "beep" 0 0%Q false 0%Q)
                    (mkTick (F := exact_clock) (-1) (1, 20) 1%Q 1%Q))
      = Erase :: mid ++ Refresh :: tail.
Proof.
  split; [discriminate|]. split; [reflexivity|]. split; [reflexivity|].
  destruct (X16_frame_draws_inside_the_window never_raises 409
              (mkApp (F := exact_clock) "beep" 0 0%Q false 0%Q)
              (mkTick (F := exact_clock) (-1) (1, 20) 1%Q 1%Q))
    as [Hin Hseq].
  split; [exact Hin|].
  destruct (Hseq ltac:(discriminate) eq_refl eq_refl)
    as (mid & tail & E & _).
  now exists mid, tail.
Defined.

(** ** [RemainingTime], further *)

Lemma minutes_of (s : Z) : (s mod 3600) / 60 = (s / 60) mod 60.
Proof.
  replace 3600 with (60 * 60) by reflexivity.
  rewrite Z.rem_mul_r by lia.
  rewrite (Z.mul_comm 60 ((s / 60) mod 60)), Z.div_add by lia.
  rewrite Z.div_small by (apply Z.mod_pos_bound; lia). lia.
Qed.

Lemma hours_of (s : Z) : s / 3600 = (s / 60) / 60.
Proof.
  replace 3600 with (60 * 60) by reflexivity.
  now rewrite Z.div_div by lia.
Qed.

Lemma day_rest_minutes (s : Z) : (s mod 86400) / 60 = (s / 60) mod 1440.
Proof.
  replace 86400 with (60 * 1440) by reflexivity.
  rewrite Z.rem_mul_r by lia.
  rewrite (Z.mul_comm 60 ((s / 60) mod 1440)), Z.div_add by lia.
  rewrite Z.div_small by (apply Z.mod_pos_bound; lia). lia.
Qed.

(** X17. Above one minute the text shows no seconds: two amounts of time
    in the same tier (both above a day, or both above a minute and at most
    a day) that cover the same number of whole minutes are formatted the
    same. *)
Theorem X17_format_time_changes_once_a_minute (s s' : Z) :
  s / 60 = s' / 60 ->
  (86400 < s /\ 86400 < s') \/ (60 < s <= 86400 /\ 60 < s' <= 86400) ->
  format_time s = format_time s'.
Proof.
  intros Hmin Htier.
  unfold format_time, SECONDS_DAY, SECONDS_HOUR, SECONDS_MINUTE.
  assert (Hd : s / 86400 = s' / 86400).
  { replace 86400 with (60 * 1440) by reflexivity.
    rewrite <- !Z.div_div by lia. now rewrite Hmin. }
  assert (Hh : s / 3600 = s' / 3600) by (rewrite !hours_of; now rewrite Hmin).
  assert (Hm : (s mod 3600) / 60 = (s' mod 3600) / 60)
    by (rewrite !minutes_of; now rewrite Hmin).
  assert (Hr : (s mod 86400) / 60 = (s' mod 86400) / 60)
    by (rewrite !day_rest_minutes; now rewrite Hmin).
  assert (Hrh : (s mod 86400) / 3600 = (s' mod 86400) / 3600)
    by (rewrite !hours_of; now rewrite Hr).
  assert (Hrm : ((s mod 86400) mod 3600) / 60 = ((s' mod 86400) mod 3600) / 60)
    by (rewrite !minutes_of; now rewrite Hr).
  destruct Htier as [[H1 H2]|[H1 H2]].
  - destruct (Z.gtb_spec s 86400); [|lia].
    destruct (Z.gtb_spec s' 86400); [|lia].
    now rewrite Hd, Hrh, Hrm.
  - destruct (Z.gtb_spec s 86400); [lia|].
    destruct (Z.gtb_spec s' 86400); [lia|].
    destruct (Z.gtb_spec s 60); [|lia].
    destruct (Z.gtb_spec s' 60); [|lia].
    now rewrite Hh, Hm.
Qed.

Lemma X17_witness :
  61 / 60 = 119 / 60
  /\ ((86400 < 61 /\ 86400 < 119) \/ (60 < 61 <= 86400 /\ 60 < 119 <= 86400))
  /\ format_time 61 = format_time 119.
Proof.
  split; [reflexivity|]. split; [right; lia|].
  apply X17_format_time_changes_once_a_minute; [reflexivity | right; lia].
Defined.

(** ** [Monitor] and the frame when drawing fails *)

Lemma outcome_bind {A B} (m : M A) (f : A -> M B) :
  outcome (bind m f)
  = match outcome m with
    | Ok a => outcome (f a)
    | Raise e => Raise e
    end.
Proof.
  destruct m as [t [a|e]]; unfold bind, outcome; simpl; [|reflexivity].
  now destruct (f a).
Qed.

Lemma Noising_draw_no_columns (ar : Z -> Z -> string -> bool) (self : Noising) :
  1 <= vy (size (n_area self)) -> vx (size (n_area self)) <= 0 ->
  Noising_draw ar self = ([], Raise (RequireError "x is out of bounds")).
Proof.
  intros Hh Hw. rewrite Noising_draw_repeated.
  apply for_each_all_raise.
  - intros E.
    assert (Hin : In 0 (range 0 (vy (size (n_area self)))))
      by (apply in_range; lia).
    rewrite E in Hin. destruct Hin.
  - intros y Hy. apply in_range in Hy. apply draw_str_x_out; lia.
Qed.

Lemma Monitor_main_content_outcome
      (ar : Z -> Z -> string -> bool) (self : Monitor) :
  vx (size (m_area self)) <= 0 ->
  ok_or_required (outcome (Monitor_main_content ar self)).
Proof.
  intros Hw. unfold Monitor_main_content.
  destruct (size (m_area self)) as [height width] eqn:Es. simpl in Hw.
  destruct (Z.geb_spec height 3) as [H3|H3]; [|now left].
  destruct (height >=? 5).
  - erewrite draw_sub_in_built by reflexivity. left.
    unfold outcome at 1; cbn [snd]. apply outcome_try_pass.
  - erewrite draw_sub_in_built by reflexivity. right.
    unfold outcome at 1; cbn [snd draw Noising_element].
    rewrite Noising_draw_no_columns; [now eexists| |];
      cbn [n_area]; unfold _inner_area; rewrite Es; simpl; lia.
Qed.

Lemma Monitor_remaining_time_outcome
      (ar : Z -> Z -> string -> bool) (self : Monitor) :
  vx (size (m_area self)) <= 0 ->
  ok_or_required (outcome (Monitor_remaining_time ar self)).
Proof.
  intros Hw. unfold Monitor_remaining_time.
  destruct (size (m_area self)) as [height width] eqn:Es. simpl in Hw.
  destruct (height >=? 2); [|now left].
  destruct (m_rem_sec self) as [r|]; [|now left]. right.
  unfold _draw_sub. destruct (r >? 0) eqn:Hr.
  - erewrite draw_sub_in_built
      by (unfold RemainingTime_init; rewrite Hr; reflexivity).
    unfold outcome at 1; cbn [snd draw RemainingTime_element].
    unfold RemainingTime_draw. cbn [rt_area].
    match goal with
    | |- context [_draw_str ar ?a ?y ?x ?s None] =>
      destruct (draw_str_out ar a y x s None) as (msg & ->);
        [rewrite Es; simpl in *; lia|]
    end.
    now exists msg.
  - unfold _draw_sub_in, RemainingTime_init. rewrite Hr. now eexists.
Qed.

Lemma Monitor_exit_hint_fails
      (ar : Z -> Z -> string -> bool) (self : Monitor) :
  1 <= vy (size (m_area self)) -> vx (size (m_area self)) <= 0 ->
  exists msg,
    outcome (Monitor_exit_hint ar self) = Raise (RequireError msg).
Proof.
  intros Hh Hw. unfold Monitor_exit_hint.
  destruct (size (m_area self)) as [height width] eqn:Es. simpl in Hh.
  destruct (Z.geb_spec height 1); [|lia].
  unfold _draw_sub. erewrite draw_sub_in_built by reflexivity.
  unfold outcome at 1; cbn [snd draw ExitHint_element].
  unfold ExitHint_draw. cbn [eh_area].
  match goal with
  | |- context [_draw_str ar ?a ?y ?x ?s None] =>
    destruct (draw_str_out ar a y x s None) as (msg & ->);
      [rewrite Es; simpl in *; lia|]
  end.
  now exists msg.
Qed.

Lemma Monitor_draw_no_columns_fails
      (ar : Z -> Z -> string -> bool) (self : Monitor) :
  1 <= vy (size (m_area self)) -> vx (size (m_area self)) <= 0 ->
  exists msg, outcome (Monitor_draw ar self) = Raise (RequireError msg).
Proof.
  intros Hh Hw. unfold Monitor_draw. rewrite outcome_bind.
  destruct (Monitor_main_content_outcome ar self Hw) as [->|(msg & ->)];
    [|now exists msg].
  rewrite outcome_bind.
  destruct (Monitor_remaining_time_outcome ar self Hw) as [->|(msg & ->)];
    [|now exists msg].
  now apply Monitor_exit_hint_fails.
Qed.

Lemma writes_app (a b : list event) : writes (a ++ b) = writes a ++ writes b.
Proof. apply filter_app. Qed.

Lemma Monitor_draw_no_room_writes
      (ar : Z -> Z -> string -> bool) (self : Monitor) :
  no_room (m_area self) -> writes (trace (Monitor_draw ar self)) = [].
Proof.
  intros Hn. apply writes_nil_of_Forall.
  apply (inv_Monitor_draw ar _ no_room); try exact Hn; try (intros; exact I).
  - apply no_room_inner.
  - intros. now apply draw_str_no_room_keeps.
Qed.

(** X18. Handed remaining seconds that are present but not positive, a
    [Monitor] of at least two rows and a column draws its band and then
    fails in the constructor of [RemainingTime]: neither the countdown nor
    the exit hint is delegated. *)
Theorem X18_monitor_fails_on_nonpositive_remaining
        (ar : Z -> Z -> string -> bool) (self : Monitor) (r : Z) :
  m_rem_sec self = Some r -> r <= 0 ->
  2 <= vy (size (m_area self)) -> 1 <= vx (size (m_area self)) ->
  Monitor_draw ar self
  = (trace (Monitor_main_content ar self),
     Raise (RequireError "Remaining seconds must be greater than zero"))
  /\ (forall a, ~ In (Sub CRemainingTime a) (trace (Monitor_draw ar self)))
  /\ (forall a, ~ In (Sub CExitHint a) (trace (Monitor_draw ar self))).
Proof.
  intros Hr Hneg Hh Hw.
  assert (Hrt : Monitor_remaining_time ar self
                = ([], Raise (RequireError
                                "Remaining seconds must be greater than zero"))).
  { unfold Monitor_remaining_time.
    destruct (size (m_area self)) as [height width]. simpl in Hh.
    destruct (Z.geb_spec height 2); [|lia]. rewrite Hr.
    unfold _draw_sub, _draw_sub_in, RemainingTime_init.
    now replace (r >? 0) with false by lia. }
  assert (Hd : Monitor_draw ar self
               = (trace (Monitor_main_content ar self),
                  Raise (RequireError
                           "Remaining seconds must be greater than zero"))).
  { unfold Monitor_draw.
    rewrite (surjective_M (Monitor_main_content ar self)) at 1.
    rewrite (Monitor_main_content_Ok ar self Hw), Hrt.
    unfold bind. cbn. now rewrite app_nil_r. }
  split; [exact Hd|]. rewrite Hd. unfold trace at 1 3; cbn [fst].
  assert (Hmain : Forall (fun e => match e with
                                   | Sub CRemainingTime _ | Sub CExitHint _ => False
                                   | _ => True
                                   end)
                         (trace (Monitor_main_content ar self))).
  { apply (inv_Monitor_main_content ar _ (fun _ => True));
      try exact I; try (intros; exact I).
    intros. apply draw_str_keeps. intros; exact I. }
  rewrite Forall_forall in Hmain.
  split; intros a Hin; exact (Hmain _ Hin).
Qed.

Lemma X18_witness :
  Some 0 = Some 0 /\ 0 <= 0 /\ 2 <= 2 /\ 1 <= 20
  /\ Monitor_draw never_raises (mkMonitor (from_dimensions 0 0 2 20) "beep" (Some 0))
     = ([], Raise (RequireError "Remaining seconds must be greater than zero")).
Proof.
  split; [reflexivity|]. split; [lia|]. split; [lia|]. split; [lia|].
  exact (proj1 (X18_monitor_fails_on_nonpositive_remaining never_raises
                  (mkMonitor (from_dimensions 0 0 2 20) "beep" (Some 0)) 0
                  eq_refl ltac:(lia) ltac:(simpl; lia) ltac:(simpl; lia))).
Defined.

Section FrameFailure.

Context {F : PyFloat}.

(** X19. A failure while rendering does not stop the loop: over a window
    with rows but no columns [Monitor.draw] fails a bounds check, the frame
    reports it, still refreshes, has written nothing, and returns
    [True]. *)
Theorem X19_rendering_failure_is_not_fatal
        (ar : Z -> Z -> string -> bool) (KEY_MOUSE : Z)
        (self : App) (tk : tick) :
  let tr := trace (_frame ar KEY_MOUSE self tk) in
  getch tk <> 27 ->
  consumes_mouse KEY_MOUSE (getch tk) = false ->
  expired self tk = Ok false ->
  1 <= fst (getmaxyx tk) -> snd (getmaxyx tk) <= 0 ->
  exists msg self',
    outcome (_frame ar KEY_MOUSE self tk) = Ok (true, self')
    /\ In (PrintRenderingError (RequireError msg)) tr
    /\ In Refresh tr
    /\ writes tr = [].
Proof.
  intros tr He Hm Hx Hrows Hcols. subst tr. rewrite frame_paths.
  destruct (Z.eqb_spec (getch tk) 27); [contradiction|].
  rewrite Hm, Hx.
  set (m := frame_monitor self tk).
  assert (Ha : m_area m = from_dimensions 0 0 (fst (getmaxyx tk))
                                          (snd (getmaxyx tk))).
  { unfold m, frame_monitor, max_area_of. cbn [m_area].
    now destruct (getmaxyx tk). }
  destruct (Monitor_draw_no_columns_fails ar m) as (msg & Hfail);
    [rewrite Ha; simpl; lia | rewrite Ha; simpl; lia |].
  assert (Hp : try_print (Monitor_draw ar m)
               = (trace (Monitor_draw ar m)
                    ++ [PrintRenderingError (RequireError msg)], Ok tt)).
  { rewrite (surjective_M (Monitor_draw ar m)) at 1. now rewrite Hfail. }
  rewrite Hp.
  repeat match goal with
         | |- context [trace (?a, ?b)] => change (trace (a, b)) with a
         | |- context [outcome (?a, ?b)] => change (outcome (a, b)) with b
         end.
  exists msg. eexists. split; [reflexivity|]. split; [|split].
  - right. apply in_or_app. left. apply in_or_app. right. now left.
  - right. apply in_or_app. right. now left.
  - change (writes (Erase :: ?l)) with (writes l).
    rewrite !writes_app, Monitor_draw_no_room_writes
      by (unfold no_room; rewrite Ha; simpl; lia).
    now destruct (cue_due self tk).
Qed.

End FrameFailure.

Lemma X19_witness :
  getch (mkTick (F := exact_clock) (-1) (3, 0) 1%Q 1%Q) <> 27
  /\ consumes_mouse 409 (-1) = false
  /\ expired (mkApp (F := exact_clock) "beep" 0 0%Q false 0%Q)
             (mkTick (F := exact_clock) (-1) (3, 0) 1%Q 1%Q) = Ok false
  /\ 1 <= fst (getmaxyx (mkTick (F := exact_clock) (-1) (3, 0) 1%Q 1%Q))
  /\ snd (getmaxyx (mkTick (F := exact_clock) (-1) (3, 0) 1%Q 1%Q)) <= 0
  /\ exists msg self',
      outcome (_frame never_raises 409
                      (mkApp (F := exact_clock) "beep" 0 0%Q false 0%Q)
                      (mkTick (F := exact_clock) (-1) (3, 0) 1%Q 1%Q))
      = Ok (true, self')
      /\ In (PrintRenderingError (RequireError msg))
            (trace (_frame never_raises 409
                           (mkApp (F := exact_clock) "beep" 0 0%Q false 0%Q)
                           (mkTick (F := exact_clock) (-1) (3, 0) 1%Q 1%Q))).
Proof.
  split; [discriminate|]. split; [reflexivity|]. split; [reflexivity|].
  split; [simpl; lia|]. split; [simpl; lia|].
  destruct (X19_rendering_failure_is_not_fatal never_raises 409
              (mkApp (F := exact_clock) "beep" 0 0%Q false 0%Q)
              (mkTick (F := exact_clock) (-1) (3, 0) 1%Q 1%Q)
              ltac:(discriminate) eq_refl eq_refl
              ltac:(simpl; lia) ltac:(simpl; lia))
    as (msg & self' & Ho & Hin & _).
  now exists msg, self'.
Defined.

(** ** [Monitor]: the border and the filler, as built *)





